(** * EncryptStorage: the encrypted key-value protocol of web-encrypt-storage

    A shallow embedding of [src/scripts/storage/storage.ts] and of the part of
    [src/scripts/crypto/crypto.utils.ts] it calls, over an explicit model of
    the two collaborators the code talks to: the IndexedDB object store
    (through [idb]) and the Web Crypto object returned by [getCryptoObject].

    Buffers ([ArrayBuffer], [Uint8Array], any [BufferSource]) are byte lists,
    object stores are finite maps from binary keys to buffers, and every
    asynchronous function is a state-and-error computation over the [World]
    that holds the databases and the random tape.  Calls run one after the
    other, each to completion.  The connection-level methods [close] and
    [deleteDB], which no property below concerns, are left out. *)

From Stdlib Require Import Strings.Byte.
From stdpp Require Import base option gmap strings list.

(** ** Buffers *)

Abbreviation Bytes := (list byte).

#[global] Instance byte_eq_decision : EqDecision byte := byte_eq_dec.

#[global] Program Instance byte_countable : Countable byte :=
  inj_countable Byte.to_N Byte.of_N _.
Next Obligation. intros x. apply Byte.of_to_N. Qed.

(** ** Outcomes of asynchronous functions

    A promise either fulfils with a value or rejects.  The rejections of the
    protocol are [Error] objects carrying one of the two messages below;
    anything the object store or the random generator raises is a
    [DOMException] named after its kind, and a typed array of an invalid
    length is refused with a [RangeError]. *)

Inductive JSError : Type :=
| Error (message : string)
| RangeError
| DOMException (name : string).

Definition CRYPTO_KEY_ERROR_MESSAGE : string := "Key is required.".
Definition AUTHENTICITY_ERROR_MESSAGE : string := "Authenticity check failed.".

Inductive Result (A : Type) : Type :=
| Ok (value : A)
| Err (reason : JSError).
Arguments Ok {A} value.
Arguments Err {A} reason.

(** ** The world: databases and the random tape *)

(** An object store with out-of-line binary keys. *)
Abbreviation Table := (gmap Bytes Bytes).

(** A database is the set of its object stores, by name. *)
Abbreviation Database := (gmap string Table).

Record World : Type := mkWorld {
  databases : gmap string Database;
  (** the bytes [getRandomValues] will deliver, and how many were drawn *)
  entropy : nat → byte;
  drawn : nat
}.

Definition with_databases (dbs : gmap string Database) (w : World) : World :=
  {| databases := dbs; entropy := entropy w; drawn := drawn w |}.

(** The object store called [name] of the database behind handle [store]. *)
Definition table_of (w : World) (store name : string) : option Table :=
  db ← databases w !! store; db !! name.

Definition M (A : Type) : Type := World → Result A * World.

Definition ret {A} (a : A) : M A := fun w => (Ok a, w).

Definition throw {A} (e : JSError) : M A := fun w => (Err e, w).

Definition bind {A B} (m : M A) (k : A → M B) : M B :=
  fun w =>
    match m w with
    | (Ok a, w') => k a w'
    | (Err e, w') => (Err e, w')
    end.

(** [await p] for a promise that has already settled. *)
Definition await {A} (p : Result A) : M A := fun w => (p, w).

Notation "'let*' x ':=' m 'in' k" := (bind m (fun x => k))
  (at level 10, x pattern, m at level 100, k at level 200).

(** ** The object store ([idb]) *)

(** A database handle is the name of the database it is connected to. *)
Abbreviation IDBPDatabase := string (only parsing).

Definition NotFoundError : JSError := DOMException "NotFoundError".

(** Every request runs in a transaction on object store [name], which
    cannot be opened when the database has no such store. *)
Definition transaction {A} (store : IDBPDatabase) (name : string)
    (f : Database → Table → M A) : M A :=
  fun w =>
    match databases w !! store with
    | Some db =>
        match db !! name with
        | Some t => f db t w
        | None => (Err NotFoundError, w)
        end
    | None => (Err NotFoundError, w)
    end.

Definition write_table (store : IDBPDatabase) (name : string)
    (db : Database) (t : Table) : M unit :=
  fun w => (Ok tt, with_databases (<[store := <[name := t]> db]> (databases w)) w).

(** [store.get(name, key)]: the record, or [undefined]. *)
Definition store_get (store : IDBPDatabase) (name : string) (key : Bytes)
    : M (option Bytes) :=
  transaction store name (fun _ t => ret (t !! key)).

(** [store.put(name, value, key)] *)
Definition store_put (store : IDBPDatabase) (name : string)
    (value key : Bytes) : M unit :=
  transaction store name (fun db t => write_table store name db (<[key := value]> t)).

(** [store.delete(name, key)]: deleting a key that has no record succeeds. *)
Definition store_delete (store : IDBPDatabase) (name : string) (key : Bytes)
    : M unit :=
  transaction store name (fun db t => write_table store name db (delete key t)).

(** [store.clear(name)] *)
Definition store_clear (store : IDBPDatabase) (name : string) : M unit :=
  transaction store name (fun db _ => write_table store name db ∅).

(** [openDB(dbName, 1, { upgrade(db) { db.createObjectStore(storeName) } })]:
    the upgrade callback runs only when the database is created. *)
Definition openDB (dbName storeName : string) : M IDBPDatabase :=
  fun w =>
    match databases w !! dbName with
    | Some _ => (Ok dbName, w)
    | None =>
        (Ok dbName,
         with_databases (<[dbName := {[ storeName := ∅ ]}]> (databases w)) w)
    end.

(** ** The collaborators of the code *)

(** The object [getCryptoObject] returns ([window.crypto], or the one
    installed by [setCryptoObjectForTesting]), restricted to the algorithms
    the storage uses: SHA-256, PBKDF2 and AES-GCM.  Key handles are opaque. *)
Class Crypto : Type := {
  CryptoKey : Type;
  (** [subtle.digest('SHA-256', data)] *)
  subtle_digest : Bytes → Bytes;
  (** [subtle.importKey('raw', data, 'PBKDF2', false, ['deriveKey'])] *)
  subtle_importKey : Bytes → CryptoKey;
  (** [subtle.deriveKey] by PBKDF2 over a salt and an iteration count,
      giving an AES-GCM key *)
  subtle_deriveKey : CryptoKey → Bytes → N → CryptoKey;
  (** [subtle.encrypt({ name: 'AES-GCM', iv }, key, data)] *)
  subtle_encrypt : CryptoKey → Bytes → Bytes → Bytes;
  (** [subtle.decrypt({ name: 'AES-GCM', iv }, key, data)]; [None] when the
      promise rejects *)
  subtle_decrypt : CryptoKey → Bytes → Bytes → option Bytes
}.

(** What the JavaScript host contributes: the UTF-8 codec behind
    [TextEncoder] and [TextDecoder], and the identity test [===] on buffer
    objects. *)
Class Host : Type := {
  TextEncoder_encode : string → Bytes;
  TextDecoder_decode : Bytes → string;
  same_object : Bytes → Bytes → bool
}.

(** [InputDataType = BufferSource | string] *)
Inductive InputDataType : Type :=
| Str (text : string)
| Buf (buffer : Bytes).

(** [key: InputDataType | CryptoKey] of [IStorageConfig] *)
Inductive KeyMaterial {crypto : Crypto} : Type :=
| RawKey (raw : InputDataType)
| KeyHandle (handle : CryptoKey).

Record IStorageConfig {crypto : Crypto} : Type := {
  config_key : option KeyMaterial;
  config_db : option string;
  config_name : option string;
  config_salt : option Bytes;
  config_iterations : option N;
  config_log : option bool
}.

(** [[IDBPDatabase<any>, string, CryptoKey, BufferSource, number | undefined]] *)
Definition IConfigProperties {crypto : Crypto} : Type :=
  (string * string * CryptoKey * Bytes * option N)%type.

(** Modelled from the spec: the default iteration count of [deriveKey], a
    constant of the crypto module whose value the spec leaves open. *)
Class CryptoDefaults : Type := {
  DEFAULT_ITERATIONS : N
}.

Section Protocol.
Context {crypto : Crypto} {host : Host} {defaults : CryptoDefaults}.

(** *** crypto.utils.ts *)

Definition encode (data : InputDataType) : Bytes :=
  match data with
  | Buf buffer => buffer
  | Str text => TextEncoder_encode text
  end.

Definition decode (data : InputDataType) : string :=
  match data with
  | Str text => text
  | Buf buffer => TextDecoder_decode buffer
  end.

(** [new Uint8Array(byteSize)] throws a [RangeError] for a negative length,
    and [getRandomValues] refuses an array of more than 65536 bytes with a
    [QuotaExceededError]. *)
Definition QuotaExceededError : JSError := DOMException "QuotaExceededError".

Definition generateRandomValues (byteSize : option Z) : M Bytes :=
  fun w =>
    let byteSize := default 8%Z byteSize in
    if (byteSize <? 0)%Z then (Err RangeError, w)
    else if (65536 <? byteSize)%Z then (Err QuotaExceededError, w)
    else
      let n := Z.to_nat byteSize in
      (Ok (entropy w <$> seq (drawn w) n),
       {| databases := databases w; entropy := entropy w; drawn := drawn w + n |}).

Definition generateNonce (byteSize : option Z) : M Bytes :=
  generateRandomValues (Some (default 16%Z byteSize)).

Definition generateSalt (byteSize : option Z) : M Bytes :=
  generateRandomValues (Some (default 8%Z byteSize)).

(** With the default algorithm, ['SHA-256']. *)
Definition generateHash (data : InputDataType) : Bytes :=
  subtle_digest (encode data).

(** *** The crypto module the storage imports *)

(** Modelled from the spec: [generateCryptoKey({ raw })] imports text or
    binary key material as a PBKDF2 key usable only for derivation. *)
Definition generateCryptoKey (raw : InputDataType) : CryptoKey :=
  subtle_importKey (encode raw).

(** Modelled from the spec: [deriveKey] given a raw salt and an optional
    iteration count derives an AES-GCM key by PBKDF2, with the default
    iteration count when none is given. *)
Definition deriveKey (key : CryptoKey) (saltOrDeriveAlgorithm : Bytes)
    (iterationsOrAlgorithmParam : option N) : CryptoKey :=
  subtle_deriveKey key saltOrDeriveAlgorithm
    (default DEFAULT_ITERATIONS iterationsOrAlgorithmParam).

(** Modelled from the spec: [encrypt({ data, key })] with the default
    algorithm draws a fresh nonce and returns the AES-GCM ciphertext of the
    encoded data together with that nonce. *)
Definition encrypt (data : InputDataType) (key : CryptoKey) : M (Bytes * Bytes) :=
  let* nonce := generateNonce None in
  ret (subtle_encrypt key nonce (encode data), nonce).

(** Modelled from the spec: [decrypt({ data, key, nonceOrAlgorithm })] wraps
    a raw nonce into the cipher algorithm of the key and passes anything else
    to the engine as it is; [undefined] is no algorithm, which the engine
    rejects.  [None] stands for the rejected promise. *)
Definition decrypt (data : Bytes) (key : CryptoKey)
    (nonceOrAlgorithm : option Bytes) : option Bytes :=
  match nonceOrAlgorithm with
  | Some nonce => subtle_decrypt key nonce data
  | None => None
  end.

(** *** storage.ts: the two helpers above the class *)

Definition getAndStoreSalt (store : IDBPDatabase) (name : string)
    (salt : option Bytes) : M Bytes :=
  let hash := generateHash (Str "o-salt") in
  let* existingSalt := store_get store name hash in
  let storeSalt : M Bytes :=
    let* saltValue :=
      match salt with
      | Some salt => ret salt
      | None => generateSalt None
      end in
    let* _ := store_put store name saltValue hash in
    ret saltValue in
  match existingSalt with
  | Some existingSalt =>
      (* [!salt || existingSalt === salt] *)
      if match salt with
         | None => true
         | Some salt => same_object existingSalt salt
         end
      then ret existingSalt
      else storeSalt
  | None => storeSalt
  end.

Definition getNonceKey (key : InputDataType) : string :=
  match key with
  | Str key => key +:+ "-nonce"
  | Buf _ => "nonce"
  end.

End Protocol.

(** The physical addresses the code computes: [hash] of [getAndStoreSalt],
    and [hashKey] and [hashNonce] of [get], [set] and [delete]. *)
Abbreviation salt_slot := (generateHash (Str "o-salt")).
Abbreviation hashKey key := (generateHash key).
Abbreviation hashNonce key := (generateHash (Str (getNonceKey key))).

Abbreviation AuthenticityError := (Error AUTHENTICITY_ERROR_MESSAGE).
Abbreviation ConfigurationError := (Error CRYPTO_KEY_ERROR_MESSAGE).

(** ** The class *)

Module EncryptStorage.

(** An instance is its one private field, the promise [_init] returned.
    The model settles that promise when the instance is constructed. *)
Record t {crypto : Crypto} : Type := {
  _properties : Result IConfigProperties
}.

Section Methods.
Context {crypto : Crypto} {host : Host} {defaults : CryptoDefaults}.

(** [!config.key]: a key is falsy when it is [undefined] or the empty
    string; every object, an empty buffer included, is truthy. *)
Definition key_is_falsy (key : option KeyMaterial) : bool :=
  match key with
  | None => true
  | Some (RawKey (Str text)) => bool_decide (text = "")
  | Some _ => false
  end.

(** [_init(config)], for the [key] the constructor has found truthy. *)
Definition _init (key : KeyMaterial) (config : IStorageConfig)
    : M IConfigProperties :=
  let db := default "default-db" (config_db config) in
  let name := default "default-storage-name" (config_name config) in
  let salt := config_salt config in
  let iterations := config_iterations config in
  let dbHash := generateHash (Str db) in
  let storeHash := generateHash (Str name) in
  let baseKey :=
    match key with
    | KeyHandle key => key
    | RawKey key => generateCryptoKey key
    end in
  let decodedStorageName := decode (Buf storeHash) in
  let* store := openDB (decode (Buf dbHash)) decodedStorageName in
  let* salt := getAndStoreSalt store decodedStorageName salt in
  ret (store, decodedStorageName, baseKey, salt, iterations).

Definition constructor (config : IStorageConfig) : M t :=
  if key_is_falsy (config_key config)
  then throw (Error CRYPTO_KEY_ERROR_MESSAGE)
  else
    match config_key config with
    | Some key => fun w =>
        let '(properties, w') := _init key config w in
        (Ok {| _properties := properties |}, w')
    | None => throw (Error CRYPTO_KEY_ERROR_MESSAGE)
    end.

Definition get (this : t) (key : InputDataType) : M (option string) :=
  let* (store, name, baseKey, salt, iterations) := await (_properties this) in
  let hashKey := generateHash key in
  let hashNonce := generateHash (Str (getNonceKey key)) in
  let* encrypted := store_get store name hashKey in
  match encrypted with
  | None => ret None
  | Some encrypted =>
      let cryptoKey := deriveKey baseKey salt iterations in
      let* nonce := store_get store name hashNonce in
      match decrypt encrypted cryptoKey nonce with
      | Some value => ret (Some (decode (Buf value)))
      | None => throw (Error AUTHENTICITY_ERROR_MESSAGE)
      end
  end.

Definition getDB (this : t) : M IDBPDatabase :=
  let* (db, _, _, _, _) := await (_properties this) in
  ret db.

Definition getStoreName (this : t) : M string :=
  let* (_, store, _, _, _) := await (_properties this) in
  ret store.

Definition set (this : t) (key value : InputDataType) : M unit :=
  let* (store, name, baseKey, salt, iterations) := await (_properties this) in
  let hashKey := generateHash key in
  let hashNonce := generateHash (Str (getNonceKey key)) in
  let cryptoKey := deriveKey baseKey salt iterations in
  let* (encrypted, nonce) := encrypt value cryptoKey in
  let* _ := store_put store name encrypted hashKey in
  store_put store name nonce hashNonce.

Definition clear (this : t) : M unit :=
  let* (store, name, _, salt, _) := await (_properties this) in
  let* _ := store_clear store name in
  let* _ := getAndStoreSalt store name (Some salt) in
  ret tt.

Definition delete (this : t) (key : InputDataType) : M unit :=
  let* (store, name, _, _, _) := await (_properties this) in
  let hashKey := generateHash key in
  let hashNonce := generateHash (Str (getNonceKey key)) in
  let* _ := store_delete store name hashKey in
  store_delete store name hashNonce.

End Methods.
End EncryptStorage.

(** The JavaScript value the promise of [get] fulfils with, if it does and
    the value is not [undefined]. *)
Definition fulfilled_with (r : Result (option string)) : option InputDataType :=
  match r with
  | Ok (Some text) => Some (Str text)
  | _ => None
  end.

(** ** What a call leaves behind *)

(** The world after object store [name] of database [store] became [t]. *)
Definition update_table (store name : string) (t : Table) (w : World) : World :=
  match databases w !! store with
  | Some db => with_databases (<[store := <[name := t]> db]> (databases w)) w
  | None => w
  end.

(** The next [n] bytes of the random tape, and the world after drawing them. *)
Definition random_bytes (w : World) (n : nat) : Bytes :=
  entropy w <$> seq (drawn w) n.

Definition draw (n : nat) (w : World) : World :=
  {| databases := databases w; entropy := entropy w; drawn := drawn w + n |}.

(** ** What the protocol expects of its collaborators *)

Section Contracts.
Context {crypto : Crypto} {host : Host}.

(** AES-GCM gives back what it encrypted under the same key and nonce. *)
Definition cipher_correct : Prop :=
  ∀ key iv data, subtle_decrypt key iv (subtle_encrypt key iv data) = Some data.

(** AES-GCM rejects a ciphertext under any other key or nonce than those
    that produced it. *)
Definition cipher_authentic : Prop :=
  ∀ key iv data key' iv',
    subtle_decrypt key' iv' (subtle_encrypt key iv data) ≠ None →
    key' = key ∧ iv' = iv.


(** One object has one content. *)
Definition identity_sound : Prop :=
  ∀ a b, same_object a b = true → a = b.



End Contracts.

(** ** Reference collaborators

    A test double for the crypto object, as [setCryptoObjectForTesting]
    installs one, and a host whose strings are already UTF-8.  Keys and
    ciphertexts are kept symbolic: a derived key spells out what it was
    derived from, and a ciphertext is its plaintext behind a header naming
    the key and the nonce, so that decryption succeeds exactly under the
    key and nonce of the encryption. *)

Module Reference.

(** A length-prefixed copy of [b]: as many [x01] as [b] has bytes, a
    [x00], then [b]. *)
Definition frame (b : Bytes) : Bytes := repeat x01 (length b) ++ x00 :: b.

Fixpoint drop_prefix (p l : Bytes) : option Bytes :=
  match p, l with
  | [], _ => Some l
  | x :: p, y :: l => if decide (x = y) then drop_prefix p l else None
  | _ :: _, [] => None
  end.

Definition crypto : Crypto := {|
  CryptoKey := Bytes;
  subtle_digest := fun data => x23 :: data;
  subtle_importKey := fun raw => raw;
  subtle_deriveKey := fun key salt iterations =>
    frame key ++ frame salt ++ repeat x01 (N.to_nat iterations);
  subtle_encrypt := fun key iv data => frame key ++ frame iv ++ data;
  subtle_decrypt := fun key iv data => drop_prefix (frame key ++ frame iv) data
|}.

Definition host : Host := {|
  TextEncoder_encode := String.list_byte_of_string;
  TextDecoder_decode := String.string_of_list_byte;
  same_object := fun _ _ => false
|}.

Definition defaults : CryptoDefaults := {| DEFAULT_ITERATIONS := 1000 |}.

(** A world without databases whose random tape counts up from zero. *)
Definition tape (n : nat) : byte :=
  default x00 (Byte.of_nat (n mod 256)).

Definition w0 : World := {| databases := ∅; entropy := tape; drawn := 0 |}.

(** *** Sample instances and worlds *)

#[local] Existing Instance crypto.
#[local] Existing Instance host.
#[local] Existing Instance defaults.

Definition config (secret : KeyMaterial) (salt : option Bytes)
    (iterations : option N) : IStorageConfig :=
  {| config_key := Some secret;
     config_db := None;
     config_name := None;
     config_salt := salt;
     config_iterations := iterations;
     config_log := None |}.

Definition text_key (secret : string) : KeyMaterial := RawKey (Str secret).

Definition store : string := "#default-db".
Definition name : string := "#default-storage-name".

(** The world after [new EncryptStorage({ key: 'k' })], and the instance. *)
Definition w_ready : World :=
  (EncryptStorage.constructor (config (text_key "k") None None) w0).2.

Definition first_salt : Bytes := [x00; x01; x02; x03; x04; x05; x06; x07].

Definition alice : EncryptStorage.t :=
  {| EncryptStorage._properties :=
       Ok (store, name, String.list_byte_of_string "k", first_salt, None) |}.

(** An instance over the same table with another secret. *)
Definition mallory : EncryptStorage.t :=
  {| EncryptStorage._properties :=
       Ok (store, name, String.list_byte_of_string "m", first_salt, None) |}.

(** The world after
    [new EncryptStorage({ key: 'k', salt: new Uint8Array([1, 2, 3]) })]. *)
Definition w_salted : World :=
  (EncryptStorage.constructor
     (config (text_key "k") (Some [x01; x02; x03]) None) w0).2.

(** The world after [set('a', '1')] on [alice], and that world after
    [delete('a-nonce')], which removes the nonce record of ['a'] and leaves
    its ciphertext. *)
Definition w_written : World :=
  (EncryptStorage.set alice (Str "a") (Str "1") w_ready).2.

Definition w_torn : World :=
  (EncryptStorage.delete alice (Str "a-nonce") w_written).2.

(** The world after [set('a', '1')] and [set('a-nonce', '2')]. *)
Definition w_suffixed : World :=
  (EncryptStorage.set alice (Str "a-nonce") (Str "2") w_written).2.




(** The configuration of [alice] and the same with another table name. *)
Definition config_k : IStorageConfig := config (text_key "k") None None.

Definition config_other_table : IStorageConfig :=
  {| config_key := Some (text_key "k");
     config_db := None;
     config_name := Some "other";
     config_salt := None;
     config_iterations := None;
     config_log := None |}.

(** The world after [delete('o-salt')] on [alice] in [w_ready], and the
    eight bytes the random tape delivers next. *)
Definition w_unsalted : World :=
  (EncryptStorage.delete alice (Str "o-salt") w_ready).2.

Definition second_salt : Bytes := [x08; x09; x0a; x0b; x0c; x0d; x0e; x0f].

(** The object store of the samples in a world. *)
Definition sample_table (w : World) : Table :=
  default ∅ (table_of w store name).

End Reference.


(** * Properties *)

(** ** The object store *)

Section StoreFacts.
Implicit Types (w : World) (t : Table) (store name : string).

Lemma table_of_Some w store name t :
  table_of w store name = Some t ↔
  ∃ db, databases w !! store = Some db ∧ db !! name = Some t.
Proof.
  unfold table_of. destruct (databases w !! store) as [db|]; simpl.
  - split; [eauto | intros (db' & [= <-] & ?); done].
  - split; [done | intros (? & [=] & _)].
Qed.

Lemma table_of_update w store name t t' :
  table_of w store name = Some t →
  table_of (update_table store name t' w) store name = Some t'.
Proof.
  intros (db & Hdb & _)%table_of_Some. unfold update_table, table_of.
  rewrite Hdb. simpl. rewrite lookup_insert_eq. simpl.
  by rewrite lookup_insert_eq.
Qed.

Lemma update_table_twice w store name t t1 t2 :
  table_of w store name = Some t →
  update_table store name t2 (update_table store name t1 w)
  = update_table store name t2 w.
Proof.
  intros (db & Hdb & _)%table_of_Some. unfold update_table.
  rewrite Hdb. simpl. rewrite lookup_insert_eq. unfold with_databases. simpl.
  by rewrite !insert_insert_eq.
Qed.

Lemma update_table_same w store name t :
  table_of w store name = Some t → update_table store name t w = w.
Proof.
  intros (db & Hdb & Ht)%table_of_Some. unfold update_table.
  rewrite Hdb. destruct w as [dbs e d]. unfold with_databases. simpl in *.
  by rewrite (insert_id db), (insert_id dbs).
Qed.

Lemma table_of_draw w store name n :
  table_of (draw n w) store name = table_of w store name.
Proof. done. Qed.

Lemma update_table_draw w store name t n :
  update_table store name t (draw n w) = draw n (update_table store name t w).
Proof. unfold update_table, draw. simpl. by destruct (databases w !! store). Qed.

Lemma store_get_spec w store name t key :
  table_of w store name = Some t →
  store_get store name key w = (Ok (t !! key), w).
Proof.
  intros (db & Hdb & Ht)%table_of_Some.
  unfold store_get, transaction. by rewrite Hdb, Ht.
Qed.

Lemma store_put_spec w store name t value key :
  table_of w store name = Some t →
  store_put store name value key w
  = (Ok tt, update_table store name (<[key := value]> t) w).
Proof.
  intros (db & Hdb & Ht)%table_of_Some.
  unfold store_put, transaction, write_table, update_table.
  by rewrite Hdb, Ht.
Qed.

Lemma store_delete_spec w store name t key :
  table_of w store name = Some t →
  store_delete store name key w
  = (Ok tt, update_table store name (delete key t) w).
Proof.
  intros (db & Hdb & Ht)%table_of_Some.
  unfold store_delete, transaction, write_table, update_table.
  by rewrite Hdb, Ht.
Qed.

Lemma store_clear_spec w store name t :
  table_of w store name = Some t →
  store_clear store name w = (Ok tt, update_table store name ∅ w).
Proof.
  intros (db & Hdb & Ht)%table_of_Some.
  unfold store_clear, transaction, write_table, update_table.
  by rewrite Hdb, Ht.
Qed.

Lemma openDB_existing w store name t :
  table_of w store name = Some t → openDB store name w = (Ok store, w).
Proof.
  intros (db & Hdb & _)%table_of_Some. unfold openDB. by rewrite Hdb.
Qed.

End StoreFacts.

(** ** Salt resolution *)

Section SaltFacts.
Context {crypto : Crypto} {host : Host} {defaults : CryptoDefaults}.
Implicit Types (w : World) (t : Table) (store name : string).

Lemma getAndStoreSalt_absent_supplied w store name t salt :
  table_of w store name = Some t →
  t !! salt_slot = None →
  getAndStoreSalt store name (Some salt) w
  = (Ok salt, update_table store name (<[salt_slot := salt]> t) w).
Proof.
  intros Ht Hslot. unfold getAndStoreSalt, bind.
  rewrite (store_get_spec _ _ _ _ _ Ht), Hslot. unfold ret.
  by rewrite (store_put_spec _ _ _ _ _ _ Ht).
Qed.

Lemma getAndStoreSalt_absent_random w store name t :
  table_of w store name = Some t →
  t !! salt_slot = None →
  getAndStoreSalt store name None w
  = (Ok (random_bytes w 8),
     update_table store name (<[salt_slot := random_bytes w 8]> t) (draw 8 w)).
Proof.
  intros Ht Hslot. unfold getAndStoreSalt, bind.
  rewrite (store_get_spec _ _ _ _ _ Ht), Hslot.
  unfold generateSalt, generateRandomValues. simpl.
  fold (draw 8 w). fold (random_bytes w 8).
  by rewrite (store_put_spec (draw 8 w) _ _ t).
Qed.

Lemma getAndStoreSalt_stored_default w store name t stored :
  table_of w store name = Some t →
  t !! salt_slot = Some stored →
  getAndStoreSalt store name None w = (Ok stored, w).
Proof.
  intros Ht Hslot. unfold getAndStoreSalt, bind.
  by rewrite (store_get_spec _ _ _ _ _ Ht), Hslot.
Qed.

Lemma getAndStoreSalt_stored_supplied w store name t stored salt :
  identity_sound →
  table_of w store name = Some t →
  t !! salt_slot = Some stored →
  getAndStoreSalt store name (Some salt) w
  = (Ok salt, update_table store name (<[salt_slot := salt]> t) w).
Proof.
  intros Hid Ht Hslot. unfold getAndStoreSalt, bind.
  rewrite (store_get_spec _ _ _ _ _ Ht), Hslot.
  destruct (same_object stored salt) eqn:Hsame.
  - apply Hid in Hsame as ->. unfold ret.
    rewrite insert_id by done. by rewrite (update_table_same _ _ _ _ Ht).
  - unfold ret. by rewrite (store_put_spec _ _ _ _ _ _ Ht).
Qed.

End SaltFacts.

(** ** The methods, call by call *)

Section MethodFacts.
Context {crypto : Crypto} {host : Host} {defaults : CryptoDefaults}.
Implicit Types (w : World) (t : Table) (store name : string).
Implicit Types (this : EncryptStorage.t) (key value : InputDataType).


Lemma get_spec this store name baseKey salt iterations w t key :
  EncryptStorage._properties this = Ok (store, name, baseKey, salt, iterations) →
  table_of w store name = Some t →
  EncryptStorage.get this key w
  = (match t !! hashKey key with
     | None => Ok None
     | Some encrypted =>
         match decrypt encrypted (deriveKey baseKey salt iterations)
                 (t !! hashNonce key) with
         | Some value => Ok (Some (decode (Buf value)))
         | None => Err AuthenticityError
         end
     end, w).
Proof.
  intros Hp Ht. unfold EncryptStorage.get, bind, await. rewrite Hp.
  rewrite (store_get_spec _ _ _ _ _ Ht).
  destruct (t !! hashKey key) as [encrypted|]; [|done].
  rewrite (store_get_spec _ _ _ _ _ Ht).
  by destruct (decrypt _ _ _).
Qed.

Lemma set_spec this store name baseKey salt iterations w t key value :
  EncryptStorage._properties this = Ok (store, name, baseKey, salt, iterations) →
  table_of w store name = Some t →
  let nonce := random_bytes w 16 in
  let encrypted :=
    subtle_encrypt (deriveKey baseKey salt iterations) nonce (encode value) in
  EncryptStorage.set this key value w
  = (Ok tt,
     update_table store name
       (<[hashNonce key := nonce]> (<[hashKey key := encrypted]> t))
       (draw 16 w)).
Proof.
  intros Hp Ht nonce encrypted.
  unfold EncryptStorage.set, bind, await. rewrite Hp.
  unfold encrypt, bind, generateNonce, generateRandomValues, ret. simpl.
  fold (draw 16 w). fold (random_bytes w 16). fold nonce. fold encrypted.
  rewrite (store_put_spec (draw 16 w) _ _ t) by done.
  erewrite store_put_spec
    by (eapply table_of_update; by rewrite table_of_draw).
  by rewrite (update_table_twice _ _ _ t) by done.
Qed.

Lemma delete_spec this store name baseKey salt iterations w t key :
  EncryptStorage._properties this = Ok (store, name, baseKey, salt, iterations) →
  table_of w store name = Some t →
  EncryptStorage.delete this key w
  = (Ok tt,
     update_table store name (delete (hashNonce key) (delete (hashKey key) t)) w).
Proof.
  intros Hp Ht. unfold EncryptStorage.delete, bind, await. rewrite Hp.
  rewrite (store_delete_spec _ _ _ _ _ Ht).
  erewrite store_delete_spec by (by eapply table_of_update).
  by rewrite (update_table_twice _ _ _ t) by done.
Qed.

Lemma clear_spec this store name baseKey salt iterations w t :
  EncryptStorage._properties this = Ok (store, name, baseKey, salt, iterations) →
  table_of w store name = Some t →
  EncryptStorage.clear this w
  = (Ok tt, update_table store name {[ salt_slot := salt ]} w).
Proof.
  intros Hp Ht. unfold EncryptStorage.clear, bind, await. rewrite Hp.
  rewrite (store_clear_spec _ _ _ _ Ht).
  erewrite getAndStoreSalt_absent_supplied;
    [| by eapply table_of_update | apply lookup_empty].
  unfold ret. by rewrite (update_table_twice _ _ _ t) by done.
Qed.

End MethodFacts.

(** ** Derived facts about writes and construction *)

Section DerivedFacts.
Context {crypto : Crypto} {host : Host} {defaults : CryptoDefaults}.
Implicit Types (w : World) (t : Table) (store name : string).
Implicit Types (this : EncryptStorage.t) (key value : InputDataType).

Lemma random_bytes_update_table w store name t n :
  random_bytes (update_table store name t w) n = random_bytes w n.
Proof. unfold update_table. by destruct (databases w !! store). Qed.

(** [set] writes the ciphertext and then the nonce it drew. *)
Lemma set_effect this store name baseKey salt iterations w t key value :
  EncryptStorage._properties this = Ok (store, name, baseKey, salt, iterations) →
  table_of w store name = Some t →
  ∃ w1,
    EncryptStorage.set this key value w = (Ok tt, w1) ∧
    table_of w1 store name
      = Some (<[hashNonce key := random_bytes w 16]>
                (<[hashKey key :=
                     subtle_encrypt (deriveKey baseKey salt iterations)
                       (random_bytes w 16) (encode value)]> t)) ∧
    ∀ n, random_bytes w1 n = random_bytes (draw 16 w) n.
Proof.
  intros Hp Ht. eexists. split; [by eapply set_spec|]. split.
  - eapply table_of_update. by rewrite table_of_draw.
  - intros n. apply random_bytes_update_table.
Qed.

Lemma delete_effect this store name baseKey salt iterations w t key :
  EncryptStorage._properties this = Ok (store, name, baseKey, salt, iterations) →
  table_of w store name = Some t →
  ∃ w1,
    EncryptStorage.delete this key w = (Ok tt, w1) ∧
    table_of w1 store name
      = Some (delete (hashNonce key) (delete (hashKey key) t)).
Proof.
  intros Hp Ht. eexists. split; [by eapply delete_spec|].
  by eapply table_of_update.
Qed.

(** A key written away from its own nonce address reads back. *)
Lemma get_after_set this store name baseKey salt iterations w t key value :
  cipher_correct →
  EncryptStorage._properties this = Ok (store, name, baseKey, salt, iterations) →
  table_of w store name = Some t →
  hashKey key ≠ hashNonce key →
  ∃ w1,
    EncryptStorage.set this key value w = (Ok tt, w1) ∧
    EncryptStorage.get this key w1
      = (Ok (Some (decode (Buf (encode value)))), w1).
Proof.
  intros Hcipher Hp Ht Hne.
  destruct (set_effect this _ _ _ _ _ w t key value Hp Ht) as (w1 & Hset & Ht1 & _).
  exists w1. split; [done|].
  rewrite (get_spec _ _ _ _ _ _ _ _ _ Hp Ht1).
  rewrite lookup_insert_ne, lookup_insert_eq by done.
  rewrite lookup_insert_eq. simpl. by rewrite Hcipher.
Qed.

(** A salt the caller supplies is the salt resolution returns. *)
Lemma getAndStoreSalt_supplied_result w w' store name salt resolved :
  identity_sound →
  getAndStoreSalt store name (Some salt) w = (Ok resolved, w') →
  resolved = salt.
Proof.
  intros Hid. unfold getAndStoreSalt, bind.
  destruct (store_get store name salt_slot w) as [[[existing|]|e] w0]; [| |done].
  - destruct (same_object existing salt) eqn:Hsame.
    + apply Hid in Hsame as ->. by intros [= ->].
    + unfold ret. destruct (store_put _ _ _ _ _) as [[[]|?] ?]; [|done].
      by intros [= ->].
  - unfold ret. destruct (store_put _ _ _ _ _) as [[[]|?] ?]; [|done].
    by intros [= ->].
Qed.

(** What a constructed instance resolved, in terms of its configuration. *)
Lemma constructor_resolved (config : IStorageConfig) w0 w1 this
    store name baseKey salt iterations :
  identity_sound →
  EncryptStorage.constructor config w0 = (Ok this, w1) →
  EncryptStorage._properties this = Ok (store, name, baseKey, salt, iterations) →
  ∃ material,
    config_key config = Some material ∧
    EncryptStorage.key_is_falsy (Some material) = false ∧
    store = decode (Buf (generateHash (Str (default "default-db" (config_db config))))) ∧
    name = decode (Buf (generateHash
             (Str (default "default-storage-name" (config_name config))))) ∧
    baseKey = match material with
              | KeyHandle handle => handle
              | RawKey raw => generateCryptoKey raw
              end ∧
    iterations = config_iterations config ∧
    ∀ supplied, config_salt config = Some supplied → salt = supplied.
Proof.
  intros Hid. unfold EncryptStorage.constructor.
  destruct (config_key config) as [material|] eqn:Hkey; [|done].
  destruct (EncryptStorage.key_is_falsy (Some material)) eqn:Hfalsy; [done|].
  destruct (EncryptStorage._init material config w0) as [properties w'] eqn:Hinit.
  intros [= <- <-]. simpl. intros ->.
  exists material. split; [done|]. split; [done|].
  revert Hinit. unfold EncryptStorage._init, bind.
  destruct (openDB _ _ w0) as [[opened|?] wo] eqn:Hopen; [|done].
  assert (opened
          = decode (Buf (generateHash (Str (default "default-db" (config_db config))))))
    as ->.
  { revert Hopen. unfold openDB.
    by destruct (databases w0 !! _); intros [= <- _]. }
  destruct (getAndStoreSalt _ _ (config_salt config) wo)
    as [[resolved|?] ws] eqn:Hsalt; [|done].
  unfold ret. intros [= <- <- <- <- <-]. repeat split.
  intros supplied Hsupplied. rewrite Hsupplied in Hsalt.
  by eapply getAndStoreSalt_supplied_result.
Qed.

(** Constructing over a table whose salt slot already holds the salt the
    configuration asks for, if it asks for one, changes nothing. *)
Lemma constructor_over_resolved (config : IStorageConfig) w t material salt :
  identity_sound →
  config_key config = Some material →
  EncryptStorage.key_is_falsy (Some material) = false →
  let store :=
    decode (Buf (generateHash (Str (default "default-db" (config_db config))))) in
  let name :=
    decode (Buf (generateHash
      (Str (default "default-storage-name" (config_name config))))) in
  let baseKey :=
    match material with
    | KeyHandle handle => handle
    | RawKey raw => generateCryptoKey raw
    end in
  table_of w store name = Some t →
  t !! salt_slot = Some salt →
  (∀ supplied, config_salt config = Some supplied → salt = supplied) →
  EncryptStorage.constructor config w
  = (Ok {| EncryptStorage._properties :=
             Ok (store, name, baseKey, salt, config_iterations config) |}, w).
Proof.
  intros Hid Hkey Hfalsy store name baseKey Ht Hslot Hsalt.
  unfold EncryptStorage.constructor. rewrite Hkey, Hfalsy.
  unfold EncryptStorage._init, bind.
  fold store. fold name. rewrite (openDB_existing _ _ _ _ Ht).
  destruct (config_salt config) as [supplied|].
  - rewrite <- (Hsalt supplied eq_refl).
    erewrite getAndStoreSalt_stored_supplied by done.
    rewrite insert_id by done. by rewrite (update_table_same _ _ _ _ Ht).
  - by erewrite getAndStoreSalt_stored_default by done.
Qed.




End DerivedFacts.

(** ** The protocol *)

Section ProtocolClaims.
Context {crypto : Crypto} {host : Host} {defaults : CryptoDefaults}.
Implicit Types (w : World) (t : Table) (store name : string).
Implicit Types (this : EncryptStorage.t) (key value : InputDataType).

(** C1, as the code has it: when the reserved slot already holds a salt and
    the caller supplies a differing one, salt resolution returns the
    caller's salt and overwrites the slot with it.  The stored salt is
    returned, and the world left as it was, when the caller supplies no
    salt. *)
Theorem supplied_salt_replaces_stored_salt w store name t stored supplied :
  identity_sound →
  table_of w store name = Some t →
  t !! salt_slot = Some stored →
  supplied ≠ stored →
  (∃ w',
     getAndStoreSalt store name (Some supplied) w = (Ok supplied, w') ∧
     table_of w' store name = Some (<[salt_slot := supplied]> t)) ∧
  getAndStoreSalt store name None w = (Ok stored, w).
Proof.
  intros Hid Ht Hslot _. split.
  - eexists. split.
    + by eapply getAndStoreSalt_stored_supplied.
    + by eapply table_of_update.
  - by eapply getAndStoreSalt_stored_default.
Qed.

(** C2, where the code departs from it: the nonce key of a binary key is
    the constant ["nonce"], whatever the key, so all binary keys are given
    one and the same nonce address; only a string key gets the key followed
    by the suffix. *)
Theorem binary_keys_share_nonce_key (b1 b2 : Bytes) (text : string) :
  getNonceKey (Buf b1) = "nonce" ∧
  hashNonce (Buf b1) = hashNonce (Buf b2) ∧
  getNonceKey (Str text) = text +:+ "-nonce".
Proof. done. Qed.

(** C3, as the code has it: on one instance, for a key whose value address
    differs from its nonce address, [set(K, V)] followed by [get(K)] returns
    the text [decode(encode(V))]: [V] itself when [V] is a string that
    survives UTF-8 encoding and decoding, the decoded bytes when [V] is
    binary. *)
Theorem set_then_get this store name baseKey salt iterations w t key value :
  cipher_correct →
  EncryptStorage._properties this = Ok (store, name, baseKey, salt, iterations) →
  table_of w store name = Some t →
  hashKey key ≠ hashNonce key →
  ∃ w1,
    EncryptStorage.set this key value w = (Ok tt, w1) ∧
    EncryptStorage.get this key w1
      = (Ok (Some (decode (Buf (encode value)))), w1) ∧
    ∀ text,
      value = Str text →
      TextDecoder_decode (TextEncoder_encode text) = text →
      EncryptStorage.get this key w1 = (Ok (Some text), w1).
Proof.
  intros Hcipher Hp Ht Hne.
  destruct (get_after_set this _ _ _ _ _ w t key value Hcipher Hp Ht Hne)
    as (w1 & Hset & Hget).
  exists w1. repeat split; [done..|].
  intros text -> Hutf8. rewrite Hget. simpl. by rewrite Hutf8.
Qed.


(** C5: [get] returns the absent result when no ciphertext is stored at the
    key's address, and raises the authenticity error, which is not the
    absent result, when a ciphertext is stored and decryption rejects it. *)
Theorem get_absent_or_authenticity_error this store name baseKey salt
    iterations w t key :
  EncryptStorage._properties this = Ok (store, name, baseKey, salt, iterations) →
  table_of w store name = Some t →
  (t !! hashKey key = None → EncryptStorage.get this key w = (Ok None, w)) ∧
  (∀ encrypted,
     t !! hashKey key = Some encrypted →
     decrypt encrypted (deriveKey baseKey salt iterations) (t !! hashNonce key)
       = None →
     EncryptStorage.get this key w = (Err AuthenticityError, w)) ∧
  Err AuthenticityError ≠ Ok (@None string).
Proof.
  intros Hp Ht. rewrite (get_spec _ _ _ _ _ _ _ _ key Hp Ht).
  split; [by intros ->|]. split; [|done].
  by intros encrypted -> ->.
Qed.

(** C6, as the code has it: when the ciphertext record of a key exists and
    its nonce record does not, [get] attempts the decryption without a
    nonce and raises the authenticity error; it does not report the key as
    absent. *)
Theorem get_without_nonce_fails_authenticity this store name baseKey salt
    iterations w t key encrypted :
  EncryptStorage._properties this = Ok (store, name, baseKey, salt, iterations) →
  table_of w store name = Some t →
  t !! hashKey key = Some encrypted →
  t !! hashNonce key = None →
  EncryptStorage.get this key w = (Err AuthenticityError, w).
Proof.
  intros Hp Ht Hc Hn. by rewrite (get_spec _ _ _ _ _ _ _ _ key Hp Ht), Hc, Hn.
Qed.


(** C8, as the code has it: [delete(K)] removes the records at the value
    address and at the nonce address of [K] and raises no error; afterwards
    [get(K)] returns the absent result; when neither address held a record
    nothing changes; and every other key whose two addresses are not among
    the two of [K] reads as before. *)
Theorem delete_removes_both_records this store name baseKey salt iterations
    w t key :
  EncryptStorage._properties this = Ok (store, name, baseKey, salt, iterations) →
  table_of w store name = Some t →
  ∃ w1,
    EncryptStorage.delete this key w = (Ok tt, w1) ∧
    table_of w1 store name
      = Some (delete (hashNonce key) (delete (hashKey key) t)) ∧
    EncryptStorage.get this key w1 = (Ok None, w1) ∧
    (t !! hashKey key = None → t !! hashNonce key = None → w1 = w) ∧
    ∀ other,
      hashKey other ≠ hashKey key → hashKey other ≠ hashNonce key →
      hashNonce other ≠ hashKey key → hashNonce other ≠ hashNonce key →
      EncryptStorage.get this other w1
        = ((EncryptStorage.get this other w).1, w1).
Proof.
  intros Hp Ht.
  pose proof (table_of_update w store name t
                (delete (hashNonce key) (delete (hashKey key) t)) Ht) as Ht1.
  exists (update_table store name
            (delete (hashNonce key) (delete (hashKey key) t)) w).
  split; [by eapply delete_spec|]. split; [done|]. split; [|split].
  - rewrite (get_spec _ _ _ _ _ _ _ _ key Hp Ht1).
    destruct (decide (hashNonce key = hashKey key)) as [->|Hne].
    + by rewrite lookup_delete_eq.
    + by rewrite lookup_delete_ne, lookup_delete_eq.
  - intros Hk Hn. rewrite (delete_id t) by done. rewrite delete_id by done.
    by apply update_table_same.
  - intros other H1 H2 H3 H4.
    rewrite (get_spec _ _ _ _ _ _ _ _ other Hp Ht1).
    rewrite (get_spec _ _ _ _ _ _ _ _ other Hp Ht). simpl.
    by rewrite !lookup_delete_ne.
Qed.

(** C9, as the code has it: construction throws the configuration error,
    and yields no instance, exactly when the key is falsy, that is
    [undefined] or the empty string; with any other key, an empty buffer
    included, it returns an instance. *)
Theorem constructor_throws_iff_key_falsy (config : IStorageConfig) w :
  (config_key config = None ∨ config_key config = Some (RawKey (Str "")) →
   EncryptStorage.constructor config w = (Err ConfigurationError, w)) ∧
  (∀ material,
     config_key config = Some material →
     material ≠ RawKey (Str "") →
     ∃ this w', EncryptStorage.constructor config w = (Ok this, w')).
Proof.
  unfold EncryptStorage.constructor. split.
  - by intros [-> | ->].
  - intros material -> Hne.
    assert (EncryptStorage.key_is_falsy (Some material) = false) as ->.
    { destruct material as [[text|]|]; [|done..]. simpl.
      apply bool_decide_eq_false. by intros ->. }
    destruct (EncryptStorage._init material config w); eauto.
Qed.

(** C10, as the code has it: every binary key has its nonce at the digest
    of ["nonce"].  For
    two binary keys whose value addresses differ from each other and from
    that shared address, and nonces that differ, the second [set]
    overwrites the nonce of the first, whose [get] then raises the
    authenticity error; and [delete] of the first removes the shared nonce
    record, after which [get] of the second raises it as well. *)
Theorem binary_keys_clobber_the_shared_nonce this store name baseKey salt
    iterations w t (k1 k2 : Bytes) v1 v2 :
  cipher_authentic →
  EncryptStorage._properties this = Ok (store, name, baseKey, salt, iterations) →
  table_of w store name = Some t →
  hashKey (Buf k1) ≠ hashKey (Buf k2) →
  hashKey (Buf k1) ≠ generateHash (Str "nonce") →
  hashKey (Buf k2) ≠ generateHash (Str "nonce") →
  random_bytes (draw 16 w) 16 ≠ random_bytes w 16 →
  hashNonce (Buf k1) = generateHash (Str "nonce") ∧
  hashNonce (Buf k2) = generateHash (Str "nonce") ∧
  ∃ w1 w2 w3,
    EncryptStorage.set this (Buf k1) v1 w = (Ok tt, w1) ∧
    EncryptStorage.set this (Buf k2) v2 w1 = (Ok tt, w2) ∧
    EncryptStorage.get this (Buf k1) w2 = (Err AuthenticityError, w2) ∧
    EncryptStorage.delete this (Buf k1) w2 = (Ok tt, w3) ∧
    EncryptStorage.get this (Buf k2) w3 = (Err AuthenticityError, w3).
Proof.
  intros Hauth Hp Ht H12 H1n H2n Hfresh. split; [done|]. split; [done|].
  destruct (set_effect this _ _ _ _ _ w t (Buf k1) v1 Hp Ht)
    as (w1 & Hset1 & Ht1 & Hrand).
  destruct (set_effect this _ _ _ _ _ w1 _ (Buf k2) v2 Hp Ht1)
    as (w2 & Hset2 & Ht2 & _).
  destruct (delete_effect this _ _ _ _ _ w2 _ (Buf k1) Hp Ht2)
    as (w3 & Hdel & Ht3).
  exists w1, w2, w3. repeat split; [done..| | done |].
  - rewrite (get_spec _ _ _ _ _ _ _ _ _ Hp Ht2). simpl.
    rewrite lookup_insert_ne, lookup_insert_ne by done.
    rewrite lookup_insert_ne, lookup_insert_eq by done.
    rewrite lookup_insert_eq. simpl. rewrite Hrand.
    destruct (subtle_decrypt _ _ _) as [plain|] eqn:Hdec; [|done].
    exfalso.
    destruct (Hauth _ _ _ _ _
                (eq_ind_r (λ o, o ≠ None) (Some_ne_None plain) Hdec))
      as [_ Hiv].
    done.
  - rewrite (get_spec _ _ _ _ _ _ _ _ _ Hp Ht3). simpl.
    rewrite lookup_delete_ne, lookup_delete_ne by done.
    rewrite lookup_insert_ne, lookup_insert_eq by done.
    by rewrite lookup_delete_eq.
Qed.

End ProtocolClaims.

(** ** Beyond the claims: construction *)

Section ConstructionFacts.
Context {crypto : Crypto} {host : Host} {defaults : CryptoDefaults}.
Implicit Types (w : World) (t : Table) (store name : string).
Implicit Types (this : EncryptStorage.t) (key value : InputDataType).

Lemma table_of_update_other w store name t store' name' :
  (store', name') ≠ (store, name) →
  table_of (update_table store name t w) store' name' = table_of w store' name'.
Proof.
  intros Hne. unfold update_table.
  destruct (databases w !! store) as [db|] eqn:Hdb; [|done].
  unfold table_of. simpl.
  destruct (decide (store' = store)) as [->|Hstore].
  - rewrite lookup_insert_eq, Hdb. simpl.
    rewrite lookup_insert_ne; [done|]. by intros ->.
  - by rewrite lookup_insert_ne.
Qed.

Lemma transaction_missing {A} w store name (f : Database → Table → M A) :
  table_of w store name = None →
  transaction store name f w = (Err NotFoundError, w).
Proof.
  unfold table_of, transaction.
  destruct (databases w !! store) as [db|]; simpl; [|done].
  by intros ->.
Qed.

Lemma store_get_world w store name (address : Bytes) :
  (store_get store name address w).2 = w.
Proof.
  unfold store_get, transaction.
  destruct (databases w !! store) as [db|]; [|done].
  by destruct (db !! name).
Qed.

(** Whenever salt resolution succeeds, the slot holds what it returned. *)
Lemma getAndStoreSalt_establishes w w' store name salt resolved :
  getAndStoreSalt store name salt w = (Ok resolved, w') →
  ∃ t, table_of w' store name = Some t ∧ t !! salt_slot = Some resolved.
Proof.
  destruct (table_of w store name) as [t|] eqn:Ht.
  - unfold getAndStoreSalt, bind. rewrite (store_get_spec _ _ _ _ _ Ht).
    destruct (t !! salt_slot) as [existing|] eqn:Hslot, salt as [supplied|].
    + destruct (same_object existing supplied).
      * intros [= <- <-]. eauto.
      * unfold ret. rewrite (store_put_spec _ _ _ _ _ _ Ht). intros [= <- <-].
        eexists. split; [by eapply table_of_update | apply lookup_insert_eq].
    + intros [= <- <-]. eauto.
    + unfold ret. rewrite (store_put_spec _ _ _ _ _ _ Ht). intros [= <- <-].
      eexists. split; [by eapply table_of_update | apply lookup_insert_eq].
    + unfold generateSalt, generateRandomValues. simpl.
      fold (draw 8 w). rewrite (store_put_spec (draw 8 w) _ _ t) by done.
      intros [= <- <-].
      eexists. split; [|apply lookup_insert_eq].
      eapply table_of_update. by rewrite table_of_draw.
  - unfold getAndStoreSalt, bind, store_get.
    by rewrite (transaction_missing _ _ _ _ Ht).
Qed.

(** A configuration without a salt adopts the salt it finds stored. *)
Lemma constructor_adopts_stored_salt (config : IStorageConfig) w t material stored :
  config_key config = Some material →
  EncryptStorage.key_is_falsy (Some material) = false →
  config_salt config = None →
  let store :=
    decode (Buf (generateHash (Str (default "default-db" (config_db config))))) in
  let name :=
    decode (Buf (generateHash
      (Str (default "default-storage-name" (config_name config))))) in
  let baseKey :=
    match material with
    | KeyHandle handle => handle
    | RawKey raw => generateCryptoKey raw
    end in
  table_of w store name = Some t →
  t !! salt_slot = Some stored →
  EncryptStorage.constructor config w
  = (Ok {| EncryptStorage._properties :=
             Ok (store, name, baseKey, stored, config_iterations config) |}, w).
Proof.
  intros Hkey Hfalsy Hsalt store name baseKey Ht Hslot.
  unfold EncryptStorage.constructor. rewrite Hkey, Hfalsy.
  unfold EncryptStorage._init, bind.
  fold store. fold name. rewrite (openDB_existing _ _ _ _ Ht), Hsalt.
  by erewrite getAndStoreSalt_stored_default by done.
Qed.

(** The salt slot of a constructed instance holds its resolved salt. *)
Lemma constructed_salt_slot (config : IStorageConfig)
    w0 w1 this store name baseKey salt iterations :
  EncryptStorage.constructor config w0 = (Ok this, w1) →
  EncryptStorage._properties this = Ok (store, name, baseKey, salt, iterations) →
  ∃ t, table_of w1 store name = Some t ∧ t !! salt_slot = Some salt.
Proof.
  intros Hnew Hp. revert Hnew. unfold EncryptStorage.constructor.
  destruct (EncryptStorage.key_is_falsy (config_key config)); [done|].
  destruct (config_key config) as [material|]; [|done].
  destruct (EncryptStorage._init material config w0) as [properties w'] eqn:Hinit.
  intros [= <- <-]. simpl in Hp. subst properties.
  revert Hinit. unfold EncryptStorage._init, bind.
  destruct (openDB _ _ w0) as [[opened|?] wo] eqn:Hopen; [|done].
  destruct (getAndStoreSalt _ _ (config_salt config) wo)
    as [[resolved|?] ws] eqn:Hsalt; [|done].
  unfold ret. intros [= <- <- <- <- <- <-].
  by eapply getAndStoreSalt_establishes.
Qed.

(** Construction over a database that does not exist yet. *)
Lemma constructor_creates_the_database_aux (config : IStorageConfig) w material :
  config_key config = Some material →
  EncryptStorage.key_is_falsy (Some material) = false →
  let store :=
    decode (Buf (generateHash (Str (default "default-db" (config_db config))))) in
  let name :=
    decode (Buf (generateHash
      (Str (default "default-storage-name" (config_name config))))) in
  let baseKey :=
    match material with
    | KeyHandle handle => handle
    | RawKey raw => generateCryptoKey raw
    end in
  let salt := default (random_bytes w 8) (config_salt config) in
  databases w !! store = None →
  ∃ w1,
    EncryptStorage.constructor config w
      = (Ok {| EncryptStorage._properties :=
                 Ok (store, name, baseKey, salt, config_iterations config) |},
         w1) ∧
    databases w1 !! store = Some {[ name := {[ salt_slot := salt ]} ]}.
Proof.
  intros Hkey Hfalsy store name baseKey salt Hdb.
  unfold EncryptStorage.constructor. rewrite Hkey, Hfalsy.
  unfold EncryptStorage._init, bind. fold store. fold name.
  unfold openDB. rewrite Hdb.
  set (w' := with_databases (<[store := {[name := ∅]}]> (databases w)) w).
  assert (table_of w' store name = Some ∅) as Ht.
  { unfold table_of, w'. simpl. rewrite lookup_insert_eq. simpl.
    apply lookup_singleton_eq. }
  unfold salt. destruct (config_salt config) as [supplied|]; simpl.
  - rewrite (getAndStoreSalt_absent_supplied w' _ _ ∅) by done.
    eexists. split; [done|]. unfold update_table, w'. simpl.
    rewrite lookup_insert_eq. simpl. rewrite lookup_insert_eq.
    by rewrite insert_singleton_eq.
  - rewrite (getAndStoreSalt_absent_random w' _ _ ∅) by done.
    eexists. split; [done|]. unfold update_table, draw, w'. simpl.
    rewrite lookup_insert_eq. simpl. rewrite lookup_insert_eq.
    by rewrite insert_singleton_eq.
Qed.

(** X1: constructing over a database that does not exist yet creates it
    with the one object store of the instance, whose only record is the salt
    slot; the salt is the supplied one, or else the next eight bytes of the
    random source. *)
Theorem constructor_creates_the_database (config : IStorageConfig) w material :
  config_key config = Some material →
  EncryptStorage.key_is_falsy (Some material) = false →
  let store :=
    decode (Buf (generateHash (Str (default "default-db" (config_db config))))) in
  let name :=
    decode (Buf (generateHash
      (Str (default "default-storage-name" (config_name config))))) in
  let baseKey :=
    match material with
    | KeyHandle handle => handle
    | RawKey raw => generateCryptoKey raw
    end in
  let salt := default (random_bytes w 8) (config_salt config) in
  databases w !! store = None →
  ∃ w1,
    EncryptStorage.constructor config w
      = (Ok {| EncryptStorage._properties :=
                 Ok (store, name, baseKey, salt, config_iterations config) |},
         w1) ∧
    databases w1 !! store = Some {[ name := {[ salt_slot := salt ]} ]} ∧
    (∀ other, other ≠ store → databases w1 !! other = databases w !! other) ∧
    (config_salt config = None → length salt = 8) ∧
    drawn w1 = drawn w + match config_salt config with Some _ => 0 | None => 8 end.
Proof.
  intros Hkey Hfalsy store name baseKey salt Hdb.
  unfold EncryptStorage.constructor. rewrite Hkey, Hfalsy.
  unfold EncryptStorage._init, bind. fold store. fold name.
  unfold openDB. rewrite Hdb.
  set (w' := with_databases (<[store := {[name := ∅]}]> (databases w)) w).
  assert (table_of w' store name = Some ∅) as Ht.
  { unfold table_of, w'. simpl. rewrite lookup_insert_eq. simpl.
    apply lookup_singleton_eq. }
  unfold salt. destruct (config_salt config) as [supplied|]; simpl.
  - rewrite (getAndStoreSalt_absent_supplied w' _ _ ∅) by done.
    eexists. split; [done|]. unfold update_table, w'. simpl.
    rewrite lookup_insert_eq. simpl. rewrite lookup_insert_eq.
    split; [by rewrite insert_singleton_eq|]. split.
    + intros other Hother. by rewrite !lookup_insert_ne.
    + split; [done|lia].
  - rewrite (getAndStoreSalt_absent_random w' _ _ ∅) by done.
    eexists. split; [done|]. unfold update_table, draw, w'. simpl.
    rewrite lookup_insert_eq. simpl. rewrite lookup_insert_eq.
    split; [by rewrite insert_singleton_eq|]. split.
    + intros other Hother. by rewrite !lookup_insert_ne.
    + split; [|done]. intros _. reflexivity.
Qed.

(** X2: whenever a constructed instance has resolved its properties, the
    object store [getDB] and [getStoreName] point at exists, and its salt
    slot holds exactly the salt the instance resolved. *)
Theorem constructor_establishes_the_salt_slot (config : IStorageConfig)
    w0 w1 this store name baseKey salt iterations :
  EncryptStorage.constructor config w0 = (Ok this, w1) →
  EncryptStorage._properties this = Ok (store, name, baseKey, salt, iterations) →
  EncryptStorage.getDB this w1 = (Ok store, w1) ∧
  EncryptStorage.getStoreName this w1 = (Ok name, w1) ∧
  ∃ t, table_of w1 store name = Some t ∧ t !! salt_slot = Some salt.
Proof.
  intros Hnew Hp.
  split; [by unfold EncryptStorage.getDB, bind, await; rewrite Hp|].
  split; [by unfold EncryptStorage.getStoreName, bind, await; rewrite Hp|].
  by eapply constructed_salt_slot.
Qed.

(** X3: salt resolution is idempotent: repeated with the same argument it
    returns the same salt and changes nothing. *)
Theorem salt_resolution_is_idempotent w w1 store name salt resolved :
  identity_sound →
  getAndStoreSalt store name salt w = (Ok resolved, w1) →
  getAndStoreSalt store name salt w1 = (Ok resolved, w1).
Proof.
  intros Hid Hfirst.
  destruct (getAndStoreSalt_establishes _ _ _ _ _ _ Hfirst) as (t & Ht & Hslot).
  destruct salt as [supplied|].
  - apply (getAndStoreSalt_supplied_result _ _ _ _ _ _ Hid) in Hfirst as ->.
    erewrite getAndStoreSalt_stored_supplied by done.
    rewrite insert_id by done. by rewrite (update_table_same _ _ _ _ Ht).
  - by eapply getAndStoreSalt_stored_default.
Qed.

(** X4: a second instance constructed from the same configuration resolves
    the same properties as the first and leaves the world as it is. *)
Theorem constructor_twice_same_properties (config : IStorageConfig)
    w0 w1 this store name baseKey salt iterations :
  identity_sound →
  EncryptStorage.constructor config w0 = (Ok this, w1) →
  EncryptStorage._properties this = Ok (store, name, baseKey, salt, iterations) →
  EncryptStorage.constructor config w1
  = (Ok {| EncryptStorage._properties :=
             Ok (store, name, baseKey, salt, iterations) |}, w1).
Proof.
  intros Hid Hnew Hp.
  destruct (constructed_salt_slot config _ _ _ _ _ _ _ _ Hnew Hp)
    as (t & Ht & Hslot).
  destruct (constructor_resolved config w0 w1 this _ _ _ _ _ Hid Hnew Hp)
    as (material & Hkey & Hfalsy & -> & -> & -> & -> & Hsalt).
  by eapply (constructor_over_resolved config _ _ material salt).
Qed.


(** X6: over a database that exists without the object store of the
    configuration, construction returns an instance whose properties are
    rejected with [NotFoundError], the upgrade callback not having run; every
    method of that instance rejects with the same error and changes
    nothing. *)
Theorem constructor_without_the_store_rejects (config : IStorageConfig)
    w db material :
  config_key config = Some material →
  EncryptStorage.key_is_falsy (Some material) = false →
  databases w
    !! decode (Buf (generateHash (Str (default "default-db" (config_db config)))))
    = Some db →
  db !! decode (Buf (generateHash
          (Str (default "default-storage-name" (config_name config)))))
    = None →
  ∃ this,
    EncryptStorage.constructor config w = (Ok this, w) ∧
    EncryptStorage._properties this = Err NotFoundError ∧
    ∀ w' key value,
      EncryptStorage.get this key w' = (Err NotFoundError, w') ∧
      EncryptStorage.set this key value w' = (Err NotFoundError, w') ∧
      EncryptStorage.delete this key w' = (Err NotFoundError, w') ∧
      EncryptStorage.clear this w' = (Err NotFoundError, w') ∧
      EncryptStorage.getDB this w' = (Err NotFoundError, w') ∧
      EncryptStorage.getStoreName this w' = (Err NotFoundError, w').
Proof.
  intros Hkey Hfalsy Hdb Hname.
  exists {| EncryptStorage._properties := Err NotFoundError |}. split.
  - unfold EncryptStorage.constructor. rewrite Hkey, Hfalsy.
    unfold EncryptStorage._init, bind, openDB. rewrite Hdb.
    unfold getAndStoreSalt, bind, store_get.
    rewrite transaction_missing; [done|].
    unfold table_of. rewrite Hdb. simpl. done.
  - split; [done|]. intros w' key value. by repeat split.
Qed.

(** X7: the key ['o-salt'] is stored in the salt slot: [set] under it
    replaces the salt by a ciphertext, and an instance constructed afterwards
    without a salt of its own resolves that ciphertext as its salt. *)
Theorem the_key_o_salt_overwrites_the_salt (config : IStorageConfig)
    this material baseKey salt iterations w t value :
  let store :=
    decode (Buf (generateHash (Str (default "default-db" (config_db config))))) in
  let name :=
    decode (Buf (generateHash
      (Str (default "default-storage-name" (config_name config))))) in
  EncryptStorage._properties this = Ok (store, name, baseKey, salt, iterations) →
  table_of w store name = Some t →
  hashNonce (Str "o-salt") ≠ salt_slot →
  config_key config = Some material →
  EncryptStorage.key_is_falsy (Some material) = false →
  config_salt config = None →
  ∃ w1 encrypted other baseKey',
    EncryptStorage.set this (Str "o-salt") value w = (Ok tt, w1) ∧
    encrypted
      = subtle_encrypt (deriveKey baseKey salt iterations) (random_bytes w 16)
          (encode value) ∧
    (table_of w1 store name ≫= (.!! salt_slot)) = Some encrypted ∧
    EncryptStorage.constructor config w1 = (Ok other, w1) ∧
    EncryptStorage._properties other
      = Ok (store, name, baseKey', encrypted, config_iterations config).
Proof.
  intros store name Hp Ht Hn Hkey Hfalsy Hsalt.
  destruct (set_effect this _ _ _ _ _ w t (Str "o-salt") value Hp Ht)
    as (w1 & Hset & Ht1 & _).
  exists w1. do 3 eexists. split; [done|]. split; [done|].
  assert ((<[hashNonce (Str "o-salt") := random_bytes w 16]>
             (<[hashKey (Str "o-salt") :=
                  subtle_encrypt (deriveKey baseKey salt iterations)
                    (random_bytes w 16) (encode value)]> t)) !! salt_slot
          = Some (subtle_encrypt (deriveKey baseKey salt iterations)
                    (random_bytes w 16) (encode value))) as Hslot.
  { by rewrite lookup_insert_ne, lookup_insert_eq. }
  split; [by rewrite Ht1|].
  split; [by eapply (constructor_adopts_stored_salt config w1 _ material)|].
  reflexivity.
Qed.

End ConstructionFacts.

(** ** Beyond the claims: the methods *)

Section OperationFacts.
Context {crypto : Crypto} {host : Host} {defaults : CryptoDefaults}.
Implicit Types (w : World) (t : Table) (store name : string).
Implicit Types (this : EncryptStorage.t) (key value : InputDataType).

Lemma store_get_total w store name (address : Bytes) :
  store_get store name address w
  = (match table_of w store name with
     | Some t => Ok (t !! address)
     | None => Err NotFoundError
     end, w).
Proof.
  destruct (table_of w store name) as [t|] eqn:Ht.
  - by apply store_get_spec.
  - by apply transaction_missing.
Qed.

(** [get] in every world: its outcome is a function of the properties and
    of the object store, and the world is returned as it was. *)
Lemma get_total this w key :
  EncryptStorage.get this key w
  = (match EncryptStorage._properties this with
     | Err e => Err e
     | Ok (store, name, baseKey, salt, iterations) =>
         match table_of w store name with
         | None => Err NotFoundError
         | Some t =>
             match t !! hashKey key with
             | None => Ok None
             | Some encrypted =>
                 match decrypt encrypted (deriveKey baseKey salt iterations)
                         (t !! hashNonce key) with
                 | Some value => Ok (Some (decode (Buf value)))
                 | None => Err AuthenticityError
                 end
             end
         end
     end, w).
Proof.
  unfold EncryptStorage.get, bind, await.
  destruct (EncryptStorage._properties this)
    as [[[[[store name] baseKey] salt] iterations]|e]; [|done].
  rewrite store_get_total.
  destruct (table_of w store name) as [t|] eqn:Ht; [|done].
  destruct (t !! hashKey key) as [encrypted|]; [|done].
  rewrite store_get_total, Ht. by destruct (decrypt _ _ _).
Qed.

Lemma clear_effect this store name baseKey salt iterations w t :
  EncryptStorage._properties this = Ok (store, name, baseKey, salt, iterations) →
  table_of w store name = Some t →
  ∃ w1,
    EncryptStorage.clear this w = (Ok tt, w1) ∧
    table_of w1 store name = Some {[ salt_slot := salt ]}.
Proof.
  intros Hp Ht. eexists. split; [by eapply clear_spec|].
  by eapply table_of_update.
Qed.

(** X8: [get] never changes the world, whatever it returns: it writes no
    record and draws no random bytes. *)
Theorem get_is_read_only this key w :
  (EncryptStorage.get this key w).2 = w.
Proof. by rewrite get_total. Qed.

(** X9: the last write wins: after [set(K, V1)] and [set(K, V2)], [get(K)]
    returns the text of [V2]. *)
Theorem set_overwrites this store name baseKey salt iterations w t key
    value1 value2 :
  cipher_correct →
  EncryptStorage._properties this = Ok (store, name, baseKey, salt, iterations) →
  table_of w store name = Some t →
  hashKey key ≠ hashNonce key →
  ∃ w1 w2,
    EncryptStorage.set this key value1 w = (Ok tt, w1) ∧
    EncryptStorage.set this key value2 w1 = (Ok tt, w2) ∧
    EncryptStorage.get this key w2
      = (Ok (Some (decode (Buf (encode value2)))), w2).
Proof.
  intros Hcipher Hp Ht Hne.
  destruct (set_effect this _ _ _ _ _ w t key value1 Hp Ht)
    as (w1 & Hset1 & Ht1 & _).
  destruct (get_after_set this _ _ _ _ _ w1 _ key value2 Hcipher Hp Ht1 Hne)
    as (w2 & Hset2 & Hget).
  by exists w1, w2.
Qed.

(** X10: [set(K, V)] leaves every key whose two addresses are not among the
    two of [K] reading as before. *)
Theorem set_preserves_other_keys this store name baseKey salt iterations
    w t key value other :
  EncryptStorage._properties this = Ok (store, name, baseKey, salt, iterations) →
  table_of w store name = Some t →
  hashKey other ≠ hashKey key → hashKey other ≠ hashNonce key →
  hashNonce other ≠ hashKey key → hashNonce other ≠ hashNonce key →
  ∃ w1,
    EncryptStorage.set this key value w = (Ok tt, w1) ∧
    EncryptStorage.get this other w1
      = ((EncryptStorage.get this other w).1, w1).
Proof.
  intros Hp Ht H1 H2 H3 H4.
  destruct (set_effect this _ _ _ _ _ w t key value Hp Ht)
    as (w1 & Hset & Ht1 & _).
  exists w1. split; [done|].
  rewrite (get_spec _ _ _ _ _ _ _ _ other Hp Ht1).
  rewrite (get_spec _ _ _ _ _ _ _ _ other Hp Ht). simpl.
  by rewrite !lookup_insert_ne.
Qed.

(** X11: [delete(K)] after [set(K, V)] leaves the table as [delete(K)]
    alone would have; when the table held nothing at the two addresses of
    [K], the table is back to what it was before the [set]. *)
Theorem set_then_delete_restores_the_table this store name baseKey salt
    iterations w t key value :
  EncryptStorage._properties this = Ok (store, name, baseKey, salt, iterations) →
  table_of w store name = Some t →
  ∃ w1 w2,
    EncryptStorage.set this key value w = (Ok tt, w1) ∧
    EncryptStorage.delete this key w1 = (Ok tt, w2) ∧
    table_of w2 store name
      = Some (delete (hashNonce key) (delete (hashKey key) t)) ∧
    (t !! hashKey key = None → t !! hashNonce key = None →
     table_of w2 store name = Some t).
Proof.
  intros Hp Ht.
  destruct (set_effect this _ _ _ _ _ w t key value Hp Ht)
    as (w1 & Hset & Ht1 & _).
  destruct (delete_effect this _ _ _ _ _ w1 _ key Hp Ht1) as (w2 & Hdel & Ht2).
  assert (delete (hashNonce key) (delete (hashKey key)
            (<[hashNonce key := random_bytes w 16]>
               (<[hashKey key :=
                    subtle_encrypt (deriveKey baseKey salt iterations)
                      (random_bytes w 16) (encode value)]> t)))
          = delete (hashNonce key) (delete (hashKey key) t)) as Heq.
  { apply map_eq. intros i.
    rewrite !lookup_delete, !lookup_insert. by repeat case_decide. }
  exists w1, w2. split; [done|]. split; [done|].
  rewrite Ht2, Heq. split; [done|].
  intros Hk Hn. by rewrite (delete_id t), delete_id.
Qed.

(** X12: [delete] is idempotent: a second [delete(K)] succeeds and changes
    nothing. *)
Theorem delete_twice this store name baseKey salt iterations w t key :
  EncryptStorage._properties this = Ok (store, name, baseKey, salt, iterations) →
  table_of w store name = Some t →
  ∃ w1,
    EncryptStorage.delete this key w = (Ok tt, w1) ∧
    EncryptStorage.delete this key w1 = (Ok tt, w1).
Proof.
  intros Hp Ht.
  destruct (delete_effect this _ _ _ _ _ w t key Hp Ht) as (w1 & Hdel & Ht1).
  exists w1. split; [done|].
  rewrite (delete_spec _ _ _ _ _ _ _ _ key Hp Ht1).
  assert (delete (hashNonce key) (delete (hashKey key)
            (delete (hashNonce key) (delete (hashKey key) t)))
          = delete (hashNonce key) (delete (hashKey key) t)) as ->.
  { apply map_eq. intros i. rewrite !lookup_delete. by repeat case_decide. }
  by rewrite (update_table_same _ _ _ _ Ht1).
Qed.

(** X13: after [clear], [get] reports every key absent whose value address
    is not the salt slot, and a second [clear] changes nothing. *)
Theorem clear_forgets_every_key this store name baseKey salt iterations w t :
  EncryptStorage._properties this = Ok (store, name, baseKey, salt, iterations) →
  table_of w store name = Some t →
  ∃ w1,
    EncryptStorage.clear this w = (Ok tt, w1) ∧
    EncryptStorage.clear this w1 = (Ok tt, w1) ∧
    ∀ key,
      hashKey key ≠ salt_slot →
      EncryptStorage.get this key w1 = (Ok None, w1).
Proof.
  intros Hp Ht.
  destruct (clear_effect this _ _ _ _ _ w t Hp Ht) as (w1 & Hclear & Ht1).
  exists w1. split; [done|]. split.
  - rewrite (clear_spec _ _ _ _ _ _ _ _ Hp Ht1).
    by rewrite (update_table_same _ _ _ _ Ht1).
  - intros key Hne. rewrite (get_spec _ _ _ _ _ _ _ _ key Hp Ht1).
    by rewrite lookup_singleton_ne.
Qed.

(** X14: [set], [delete] and [clear] write to the object store of their
    instance only: every other object store, of this or of another
    database, is left as it was, and an instance over it reads as before. *)
Theorem writes_stay_in_their_store this store name baseKey salt iterations
    w t key value store' name' :
  EncryptStorage._properties this = Ok (store, name, baseKey, salt, iterations) →
  table_of w store name = Some t →
  (store', name') ≠ (store, name) →
  table_of (EncryptStorage.set this key value w).2 store' name'
    = table_of w store' name' ∧
  table_of (EncryptStorage.delete this key w).2 store' name'
    = table_of w store' name' ∧
  table_of (EncryptStorage.clear this w).2 store' name'
    = table_of w store' name' ∧
  ∀ reader baseKey' salt' iterations' key' w1,
    EncryptStorage._properties reader
      = Ok (store', name', baseKey', salt', iterations') →
    table_of w1 store' name' = table_of w store' name' →
    (EncryptStorage.get reader key' w1).1 = (EncryptStorage.get reader key' w).1.
Proof.
  intros Hp Ht Hne. repeat split.
  - rewrite (set_spec _ _ _ _ _ _ _ _ key value Hp Ht). simpl.
    by rewrite table_of_update_other.
  - rewrite (delete_spec _ _ _ _ _ _ _ _ key Hp Ht). simpl.
    by rewrite table_of_update_other.
  - rewrite (clear_spec _ _ _ _ _ _ _ _ Hp Ht). simpl.
    by rewrite table_of_update_other.
  - intros reader baseKey' salt' iterations' key' w1 Hreader Hsame.
    rewrite !get_total, Hreader. simpl. by rewrite Hsame.
Qed.

(** X15: a string key and the binary key made of its encoded bytes have the
    same value address but not the same nonce address: what [set] stored
    under the string, [get] under the bytes finds and, no nonce being stored
    at the address of binary keys, rejects with the authenticity error. *)
Theorem string_key_aliases_its_bytes this store name baseKey salt iterations
    w t (text : string) value :
  EncryptStorage._properties this = Ok (store, name, baseKey, salt, iterations) →
  table_of w store name = Some t →
  t !! generateHash (Str "nonce") = None →
  generateHash (Str "nonce") ≠ hashKey (Str text) →
  generateHash (Str "nonce") ≠ hashNonce (Str text) →
  hashKey (Buf (TextEncoder_encode text)) = hashKey (Str text) ∧
  ∃ w1,
    EncryptStorage.set this (Str text) value w = (Ok tt, w1) ∧
    EncryptStorage.get this (Buf (TextEncoder_encode text)) w1
      = (Err AuthenticityError, w1).
Proof.
  intros Hp Ht Hnone Hk Hn. split; [done|].
  destruct (set_effect this _ _ _ _ _ w t (Str text) value Hp Ht)
    as (w1 & Hset & Ht1 & _).
  exists w1. split; [done|].
  rewrite (get_spec _ _ _ _ _ _ _ _ _ Hp Ht1).
  change (hashKey (Buf (TextEncoder_encode text))) with (hashKey (Str text)).
  destruct (decide (hashKey (Str text) = hashNonce (Str text))) as [Heq|Hne].
  - rewrite Heq, lookup_insert_eq. simpl.
    by rewrite !lookup_insert_ne, Hnone by (by rewrite <- ?Heq).
  - rewrite lookup_insert_ne, lookup_insert_eq by done. simpl.
    by rewrite !lookup_insert_ne, Hnone by done.
Qed.

(** X16: [set] and [delete] of a key whose two addresses differ from the
    salt slot leave the stored salt as it is. *)
Theorem the_salt_survives_set_and_delete this store name baseKey salt
    iterations w t key value stored :
  EncryptStorage._properties this = Ok (store, name, baseKey, salt, iterations) →
  table_of w store name = Some t →
  t !! salt_slot = Some stored →
  hashKey key ≠ salt_slot →
  hashNonce key ≠ salt_slot →
  (table_of (EncryptStorage.set this key value w).2 store name
     ≫= (.!! salt_slot)) = Some stored ∧
  (table_of (EncryptStorage.delete this key w).2 store name
     ≫= (.!! salt_slot)) = Some stored.
Proof.
  intros Hp Ht Hslot Hk Hn. split.
  - rewrite (set_spec _ _ _ _ _ _ _ _ key value Hp Ht). simpl.
    erewrite table_of_update by (by rewrite table_of_draw). simpl.
    by rewrite !lookup_insert_ne.
  - rewrite (delete_spec _ _ _ _ _ _ _ _ key Hp Ht). simpl.
    erewrite table_of_update by done. simpl.
    by rewrite !lookup_delete_ne.
Qed.


(** X18: [delete] under the key ['o-salt'] removes the stored salt; an
    instance constructed afterwards without a salt of its own finds none,
    draws eight new random bytes and stores them as the salt. *)
Theorem the_key_o_salt_deletes_the_salt (config : IStorageConfig)
    this material baseKey salt iterations w t :
  let store :=
    decode (Buf (generateHash (Str (default "default-db" (config_db config))))) in
  let name :=
    decode (Buf (generateHash
      (Str (default "default-storage-name" (config_name config))))) in
  EncryptStorage._properties this = Ok (store, name, baseKey, salt, iterations) →
  table_of w store name = Some t →
  config_key config = Some material →
  EncryptStorage.key_is_falsy (Some material) = false →
  config_salt config = None →
  ∃ w1 w2 other baseKey',
    EncryptStorage.delete this (Str "o-salt") w = (Ok tt, w1) ∧
    (table_of w1 store name ≫= (.!! salt_slot)) = None ∧
    EncryptStorage.constructor config w1 = (Ok other, w2) ∧
    EncryptStorage._properties other
      = Ok (store, name, baseKey', random_bytes w1 8, config_iterations config) ∧
    (table_of w2 store name ≫= (.!! salt_slot)) = Some (random_bytes w1 8).
Proof.
  intros store name Hp Ht Hkey Hfalsy Hsalt.
  destruct (delete_effect this _ _ _ _ _ w t (Str "o-salt") Hp Ht)
    as (w1 & Hdel & Ht1).
  assert (delete (hashNonce (Str "o-salt")) (delete (hashKey (Str "o-salt")) t)
            !! salt_slot = None) as Hslot.
  { rewrite lookup_delete. case_decide; [done|]. apply lookup_delete_eq. }
  exists w1. do 3 eexists. split; [done|]. split; [by rewrite Ht1|].
  unfold EncryptStorage.constructor. rewrite Hkey, Hfalsy.
  unfold EncryptStorage._init, bind. fold store. fold name.
  rewrite (openDB_existing _ _ _ _ Ht1), Hsalt.
  erewrite getAndStoreSalt_absent_random by done.
  split; [done|]. split; [done|].
  erewrite table_of_update by (by rewrite table_of_draw). simpl.
  apply lookup_insert_eq.
Qed.

(** X19: an instance constructed over a database that did not exist reports
    every key absent whose value address is not the salt slot; under the key
    ['o-salt'] it finds the salt itself, has no nonce for it and raises the
    authenticity error. *)
Theorem a_new_database_holds_no_key (config : IStorageConfig) w material :
  config_key config = Some material →
  EncryptStorage.key_is_falsy (Some material) = false →
  databases w
    !! decode (Buf (generateHash (Str (default "default-db" (config_db config)))))
    = None →
  ∃ this w1,
    EncryptStorage.constructor config w = (Ok this, w1) ∧
    (∀ key,
       hashKey key ≠ salt_slot →
       EncryptStorage.get this key w1 = (Ok None, w1)) ∧
    (hashNonce (Str "o-salt") ≠ salt_slot →
     EncryptStorage.get this (Str "o-salt") w1 = (Err AuthenticityError, w1)).
Proof.
  intros Hkey Hfalsy Hdb.
  destruct (constructor_creates_the_database_aux config w material Hkey Hfalsy Hdb)
    as (w1 & Hnew & Hdb1).
  do 2 eexists. split; [done|].
  assert (table_of w1
            (decode (Buf (generateHash
               (Str (default "default-db" (config_db config))))))
            (decode (Buf (generateHash
               (Str (default "default-storage-name" (config_name config))))))
          = Some {[ salt_slot := default (random_bytes w 8) (config_salt config) ]})
    as Ht.
  { unfold table_of. rewrite Hdb1. simpl. apply lookup_singleton_eq. }
  split.
  - intros key Hne. rewrite get_total. cbn [EncryptStorage._properties].
    rewrite Ht. by rewrite lookup_singleton_ne.
  - intros Hne. rewrite get_total. cbn [EncryptStorage._properties].
    rewrite Ht, lookup_singleton_eq. by rewrite lookup_singleton_ne.
Qed.

End OperationFacts.

(** ** The reference collaborators keep the contracts *)

Section ReferenceFacts.
Import Reference.

Lemma repeat_separator_inj (n m : nat) (l l' : Bytes) :
  repeat x01 n ++ x00 :: l = repeat x01 m ++ x00 :: l' → n = m ∧ l = l'.
Proof.
  revert m. induction n as [|n IH]; intros [|m]; simpl; intros Heq.
  - by injection Heq as ->.
  - done.
  - done.
  - injection Heq as Heq. by destruct (IH _ Heq) as [-> ->].
Qed.

Lemma frame_app_inj (a b r r' : Bytes) :
  frame a ++ r = frame b ++ r' → a = b ∧ r = r'.
Proof.
  unfold frame. rewrite <- !app_assoc. simpl.
  intros [Hlen Heq]%repeat_separator_inj.
  by apply app_inj_1.
Qed.

Lemma drop_prefix_app (p l : Bytes) : drop_prefix p (p ++ l) = Some l.
Proof. induction p as [|x p IH]; simpl; [done|]. by rewrite decide_True. Qed.

Lemma drop_prefix_Some (p l r : Bytes) :
  drop_prefix p l = Some r → l = p ++ r.
Proof.
  revert l. induction p as [|x p IH]; intros [|y l]; simpl; try done.
  - by intros [= ->].
  - by intros [= ->].
  - destruct (decide (x = y)) as [->|]; [|done]. intros ->%IH. done.
Qed.

Lemma reference_cipher_correct : cipher_correct (crypto := crypto).
Proof.
  intros key iv data. simpl. rewrite app_assoc. apply drop_prefix_app.
Qed.

Lemma reference_cipher_authentic : cipher_authentic (crypto := crypto).
Proof.
  intros key iv data key' iv'. simpl.
  destruct (drop_prefix _ _) as [r|] eqn:Hdrop; [intros _|done].
  apply drop_prefix_Some in Hdrop. rewrite <- app_assoc in Hdrop.
  apply frame_app_inj in Hdrop as [-> Hdrop].
  by apply frame_app_inj in Hdrop as [-> _].
Qed.



Lemma reference_identity_sound : identity_sound (host := host).
Proof. by intros a b. Qed.

End ReferenceFacts.

(** ** The claims on the reference collaborators *)

Section OnReference.
Import Reference.
#[local] Existing Instance crypto.
#[local] Existing Instance host.
#[local] Existing Instance defaults.

Local Abbreviation nonce_bytes := (String.list_byte_of_string "nonce").

(** C1 at the sample: over a slot holding [[1; 2; 3]], resolving with the
    supplied salt [[1; 22; 13]] returns and stores the supplied one. *)
Lemma supplied_salt_replaces_stored_salt_witness :
  (∃ w',
     getAndStoreSalt store name (Some [x01; x16; x0d]) w_salted
       = (Ok [x01; x16; x0d], w') ∧
     table_of w' store name
       = Some (<[salt_slot := [x01; x16; x0d]]> (sample_table w_salted))) ∧
  getAndStoreSalt store name None w_salted = (Ok [x01; x02; x03], w_salted).
Proof.
  apply (supplied_salt_replaces_stored_salt w_salted store name
           (sample_table w_salted) [x01; x02; x03] [x01; x16; x0d]).
  - apply reference_identity_sound.
  - reflexivity.
  - reflexivity.
  - discriminate.
Defined.

(** C1 fails as stated: the stored salt [[1; 2; 3]] does not win against
    the supplied [[1; 22; 13]], which is returned and replaces it in the
    slot; an instance constructed with it resolves it. *)
Lemma stored_salt_loses_to_supplied_salt :
  sample_table w_salted !! salt_slot = Some [x01; x02; x03] ∧
  (getAndStoreSalt store name (Some [x01; x16; x0d]) w_salted).1
    = Ok [x01; x16; x0d] ∧
  sample_table (getAndStoreSalt store name (Some [x01; x16; x0d]) w_salted).2
    !! salt_slot = Some [x01; x16; x0d] ∧
  (EncryptStorage.constructor
     (config (text_key "k") (Some [x01; x16; x0d]) None) w_salted).1
    = Ok {| EncryptStorage._properties :=
              Ok (store, name, String.list_byte_of_string "k",
                  [x01; x16; x0d], None) |}.
Proof. vm_compute. done. Qed.

(** C3 fails as stated: a binary value comes back as text, not as the
    buffer that was set; and under the binary key spelling [nonce], whose
    value address is its nonce address, [get] after [set] raises the
    authenticity error. *)
Lemma set_then_get_is_not_the_identity :
  fulfilled_with
    (EncryptStorage.get alice (Str "a")
       (EncryptStorage.set alice (Str "a") (Buf [x31]) w_ready).2).1
    = Some (Str "1") ∧
  fulfilled_with
    (EncryptStorage.get alice (Str "a")
       (EncryptStorage.set alice (Str "a") (Buf [x31]) w_ready).2).1
    ≠ Some (Buf [x31]) ∧
  (EncryptStorage.get alice (Buf nonce_bytes)
     (EncryptStorage.set alice (Buf nonce_bytes) (Str "1") w_ready).2).1
    = Err AuthenticityError.
Proof. vm_compute. done. Qed.

(** C3 at the sample: ['1'] set under ['a'] reads back. *)
Lemma set_then_get_witness :
  ∃ w1,
    EncryptStorage.set alice (Str "a") (Str "1") w_ready = (Ok tt, w1) ∧
    EncryptStorage.get alice (Str "a") w1
      = (Ok (Some (decode (Buf (encode (Str "1"))))), w1) ∧
    ∀ text,
      Str "1" = Str text →
      TextDecoder_decode (TextEncoder_encode text) = text →
      EncryptStorage.get alice (Str "a") w1 = (Ok (Some text), w1).
Proof.
  apply (set_then_get alice store name (String.list_byte_of_string "k")
           first_salt None w_ready (sample_table w_ready)).
  - apply reference_cipher_correct.
  - reflexivity.
  - reflexivity.
  - discriminate.
Defined.



(** C5 at the sample: the table after construction holds nothing under
    ['a']. *)
Lemma get_absent_or_authenticity_error_witness :
  (sample_table w_ready !! hashKey (Str "a") = None →
   EncryptStorage.get alice (Str "a") w_ready = (Ok None, w_ready)) ∧
  (∀ encrypted,
     sample_table w_ready !! hashKey (Str "a") = Some encrypted →
     decrypt encrypted
       (deriveKey (String.list_byte_of_string "k") first_salt None)
       (sample_table w_ready !! hashNonce (Str "a")) = None →
     EncryptStorage.get alice (Str "a") w_ready
       = (Err AuthenticityError, w_ready)) ∧
  Err AuthenticityError ≠ Ok (@None string).
Proof.
  apply (get_absent_or_authenticity_error alice store name
           (String.list_byte_of_string "k") first_salt None w_ready
           (sample_table w_ready) (Str "a")).
  - reflexivity.
  - reflexivity.
Defined.

(** C6 fails as stated: with the ciphertext of ['a'] stored and its nonce
    record gone, [get('a')] raises the authenticity error and does not
    return the absent result. *)
Lemma missing_nonce_is_not_reported_absent :
  is_Some (sample_table w_torn !! hashKey (Str "a")) ∧
  sample_table w_torn !! hashNonce (Str "a") = None ∧
  (EncryptStorage.get alice (Str "a") w_torn).1 = Err AuthenticityError ∧
  (EncryptStorage.get alice (Str "a") w_torn).1 ≠ Ok None.
Proof. vm_compute. split; [eauto|done]. Qed.

(** C6, as the code has it, at the same sample. *)
Lemma get_without_nonce_fails_authenticity_witness :
  EncryptStorage.get alice (Str "a") w_torn = (Err AuthenticityError, w_torn).
Proof.
  eapply (get_without_nonce_fails_authenticity alice store name
            (String.list_byte_of_string "k") first_salt None w_torn
            (sample_table w_torn) (Str "a")).
  - reflexivity.
  - reflexivity.
  - reflexivity.
  - reflexivity.
Defined.


(** C8 fails as stated: ['a-nonce'] is stored and reads ['2']; after
    [delete('a')], whose nonce address is the value address of
    ['a-nonce'], it is reported absent. *)
Lemma delete_takes_another_key_along :
  (EncryptStorage.get alice (Str "a-nonce") w_suffixed).1 = Ok (Some "2") ∧
  (EncryptStorage.delete alice (Str "a") w_suffixed).1 = Ok tt ∧
  (EncryptStorage.get alice (Str "a-nonce")
     (EncryptStorage.delete alice (Str "a") w_suffixed).2).1 = Ok None.
Proof. vm_compute. done. Qed.

(** C8, as the code has it, at the sample: [delete('a')] over the table
    that holds ['a'] and ['a-nonce']. *)
Lemma delete_removes_both_records_witness :
  ∃ w1,
    EncryptStorage.delete alice (Str "a") w_suffixed = (Ok tt, w1) ∧
    table_of w1 store name
      = Some (delete (hashNonce (Str "a"))
                (delete (hashKey (Str "a")) (sample_table w_suffixed))) ∧
    EncryptStorage.get alice (Str "a") w1 = (Ok None, w1) ∧
    (sample_table w_suffixed !! hashKey (Str "a") = None →
     sample_table w_suffixed !! hashNonce (Str "a") = None →
     w1 = w_suffixed) ∧
    ∀ other,
      hashKey other ≠ hashKey (Str "a") →
      hashKey other ≠ hashNonce (Str "a") →
      hashNonce other ≠ hashKey (Str "a") →
      hashNonce other ≠ hashNonce (Str "a") →
      EncryptStorage.get alice other w1
        = ((EncryptStorage.get alice other w_suffixed).1, w1).
Proof.
  apply (delete_removes_both_records alice store name
           (String.list_byte_of_string "k") first_salt None w_suffixed
           (sample_table w_suffixed) (Str "a")).
  - reflexivity.
  - reflexivity.
Defined.

(** C9 fails as stated: with the empty buffer as secret, construction
    returns an instance. *)
Lemma empty_buffer_secret_constructs :
  ∃ this,
    (EncryptStorage.constructor (config (RawKey (Buf [])) None None) w0).1
      = Ok this.
Proof. vm_compute. eauto. Qed.

(** C9, as the code has it, at the samples: no key throws, the key ['k']
    constructs. *)
Lemma constructor_throws_iff_key_falsy_witness :
  EncryptStorage.constructor
    {| config_key := None; config_db := None; config_name := None;
       config_salt := None; config_iterations := None; config_log := None |} w0
    = (Err ConfigurationError, w0) ∧
  ∃ this w',
    EncryptStorage.constructor (config (text_key "k") None None) w0
      = (Ok this, w').
Proof.
  split.
  - apply (proj1 (constructor_throws_iff_key_falsy
                    {| config_key := None; config_db := None;
                       config_name := None; config_salt := None;
                       config_iterations := None; config_log := None |} w0)).
    by left.
  - apply (proj2 (constructor_throws_iff_key_falsy
                    (config (text_key "k") None None) w0) (text_key "k"));
      [reflexivity | discriminate].
Defined.

(** C10 fails as stated: for the distinct binary keys [[1]] and the bytes
    of [nonce], whose value address is the shared nonce address, [set] of
    the second leaves one record, the nonce; [delete] of the first removes
    it, and [get] of the second then reports the key absent instead of
    raising the authenticity error. *)
Lemma the_binary_key_nonce_is_reported_absent :
  Buf [x01] ≠ Buf nonce_bytes ∧
  (EncryptStorage.get alice (Buf nonce_bytes)
     (EncryptStorage.delete alice (Buf [x01])
        (EncryptStorage.set alice (Buf nonce_bytes) (Str "2")
           (EncryptStorage.set alice (Buf [x01]) (Str "1") w_ready).2).2).2).1
    = Ok None.
Proof. split; [discriminate|]. vm_compute. reflexivity. Qed.

(** C10, as the code has it, at the sample: the binary keys [[1]] and [[2]] on [alice]. *)
Lemma binary_keys_clobber_the_shared_nonce_witness :
  hashNonce (Buf [x01]) = generateHash (Str "nonce") ∧
  hashNonce (Buf [x02]) = generateHash (Str "nonce") ∧
  ∃ w1 w2 w3,
    EncryptStorage.set alice (Buf [x01]) (Str "1") w_ready = (Ok tt, w1) ∧
    EncryptStorage.set alice (Buf [x02]) (Str "2") w1 = (Ok tt, w2) ∧
    EncryptStorage.get alice (Buf [x01]) w2 = (Err AuthenticityError, w2) ∧
    EncryptStorage.delete alice (Buf [x01]) w2 = (Ok tt, w3) ∧
    EncryptStorage.get alice (Buf [x02]) w3 = (Err AuthenticityError, w3).
Proof.
  apply (binary_keys_clobber_the_shared_nonce alice store name
           (String.list_byte_of_string "k") first_salt None w_ready
           (sample_table w_ready) [x01] [x02] (Str "1") (Str "2")).
  - apply reference_cipher_authentic.
  - reflexivity.
  - reflexivity.
  - discriminate.
  - discriminate.
  - discriminate.
  - vm_compute. discriminate.
Defined.

End OnReference.

(** ** The further properties on the reference collaborators *)

Section FurtherOnReference.
Import Reference.
#[local] Existing Instance crypto.
#[local] Existing Instance host.
#[local] Existing Instance defaults.

Local Abbreviation secret_k := (String.list_byte_of_string "k").

(** X1 at the sample: [new EncryptStorage({ key: 'k' })] in the empty
    world. *)
Lemma constructor_creates_the_database_witness :
  ∃ w1,
    EncryptStorage.constructor config_k w0 = (Ok alice, w1) ∧
    databases w1 !! store = Some {[ name := {[ salt_slot := first_salt ]} ]} ∧
    (∀ other, other ≠ store → databases w1 !! other = databases w0 !! other) ∧
    (config_salt config_k = None → length first_salt = 8) ∧
    drawn w1 = drawn w0 + 8.
Proof.
  refine (constructor_creates_the_database config_k w0 (text_key "k") _ _ _).
  - reflexivity.
  - reflexivity.
  - reflexivity.
Defined.

(** X2 at the sample. *)
Lemma constructor_establishes_the_salt_slot_witness :
  EncryptStorage.getDB alice w_ready = (Ok store, w_ready) ∧
  EncryptStorage.getStoreName alice w_ready = (Ok name, w_ready) ∧
  ∃ t, table_of w_ready store name = Some t ∧ t !! salt_slot = Some first_salt.
Proof.
  apply (constructor_establishes_the_salt_slot config_k w0 w_ready alice
           store name secret_k first_salt None).
  - reflexivity.
  - reflexivity.
Defined.

(** X3 at the sample: resolving twice over a table without a salt. *)
Lemma salt_resolution_is_idempotent_witness :
  getAndStoreSalt store name None
    (getAndStoreSalt store name None w_unsalted).2
  = (Ok second_salt, (getAndStoreSalt store name None w_unsalted).2).
Proof.
  apply (salt_resolution_is_idempotent w_unsalted
           (getAndStoreSalt store name None w_unsalted).2
           store name None second_salt).
  - apply reference_identity_sound.
  - reflexivity.
Defined.

(** X4 at the sample: a second [new EncryptStorage({ key: 'k' })]. *)
Lemma constructor_twice_same_properties_witness :
  EncryptStorage.constructor config_k w_ready = (Ok alice, w_ready).
Proof.
  apply (constructor_twice_same_properties config_k w0 w_ready alice
           store name secret_k first_salt None).
  - apply reference_identity_sound.
  - reflexivity.
  - reflexivity.
Defined.


(** X6 at the sample: the table ['other'] in the database [alice]
    created. *)
Lemma constructor_without_the_store_rejects_witness :
  ∃ this,
    EncryptStorage.constructor config_other_table w_ready = (Ok this, w_ready) ∧
    EncryptStorage._properties this = Err NotFoundError ∧
    ∀ w' key value,
      EncryptStorage.get this key w' = (Err NotFoundError, w') ∧
      EncryptStorage.set this key value w' = (Err NotFoundError, w') ∧
      EncryptStorage.delete this key w' = (Err NotFoundError, w') ∧
      EncryptStorage.clear this w' = (Err NotFoundError, w') ∧
      EncryptStorage.getDB this w' = (Err NotFoundError, w') ∧
      EncryptStorage.getStoreName this w' = (Err NotFoundError, w').
Proof.
  apply (constructor_without_the_store_rejects config_other_table w_ready
           {[ name := sample_table w_ready ]} (text_key "k")).
  - reflexivity.
  - reflexivity.
  - reflexivity.
  - reflexivity.
Defined.

(** X7 at the sample: [set('o-salt', '1')] on [alice]. *)
Lemma the_key_o_salt_overwrites_the_salt_witness :
  ∃ w1 encrypted other baseKey',
    EncryptStorage.set alice (Str "o-salt") (Str "1") w_ready = (Ok tt, w1) ∧
    encrypted
      = subtle_encrypt (deriveKey secret_k first_salt None)
          (random_bytes w_ready 16) (encode (Str "1")) ∧
    (table_of w1 store name ≫= (.!! salt_slot)) = Some encrypted ∧
    EncryptStorage.constructor config_k w1 = (Ok other, w1) ∧
    EncryptStorage._properties other
      = Ok (store, name, baseKey', encrypted, None).
Proof.
  refine (the_key_o_salt_overwrites_the_salt config_k alice (text_key "k")
            secret_k first_salt None w_ready (sample_table w_ready) (Str "1")
            _ _ _ _ _ _).
  - reflexivity.
  - reflexivity.
  - discriminate.
  - reflexivity.
  - reflexivity.
  - reflexivity.
Defined.

(** X9 at the sample. *)
Lemma set_overwrites_witness :
  ∃ w1 w2,
    EncryptStorage.set alice (Str "a") (Str "1") w_ready = (Ok tt, w1) ∧
    EncryptStorage.set alice (Str "a") (Str "2") w1 = (Ok tt, w2) ∧
    EncryptStorage.get alice (Str "a") w2
      = (Ok (Some (decode (Buf (encode (Str "2"))))), w2).
Proof.
  apply (set_overwrites alice store name secret_k first_salt None w_ready
           (sample_table w_ready) (Str "a") (Str "1") (Str "2")).
  - apply reference_cipher_correct.
  - reflexivity.
  - reflexivity.
  - discriminate.
Defined.

(** X10 at the sample: [set('b', '2')] over the table that holds ['a']. *)
Lemma set_preserves_other_keys_witness :
  ∃ w1,
    EncryptStorage.set alice (Str "b") (Str "2") w_written = (Ok tt, w1) ∧
    EncryptStorage.get alice (Str "a") w1
      = ((EncryptStorage.get alice (Str "a") w_written).1, w1).
Proof.
  apply (set_preserves_other_keys alice store name secret_k first_salt None
           w_written (sample_table w_written) (Str "b") (Str "2") (Str "a")).
  - reflexivity.
  - reflexivity.
  - discriminate.
  - discriminate.
  - discriminate.
  - discriminate.
Defined.

(** X11 at the sample: ['a'] set and deleted over the table that holds the
    salt only. *)
Lemma set_then_delete_restores_the_table_witness :
  ∃ w1 w2,
    EncryptStorage.set alice (Str "a") (Str "1") w_ready = (Ok tt, w1) ∧
    EncryptStorage.delete alice (Str "a") w1 = (Ok tt, w2) ∧
    table_of w2 store name
      = Some (delete (hashNonce (Str "a"))
                (delete (hashKey (Str "a")) (sample_table w_ready))) ∧
    (sample_table w_ready !! hashKey (Str "a") = None →
     sample_table w_ready !! hashNonce (Str "a") = None →
     table_of w2 store name = Some (sample_table w_ready)).
Proof.
  apply (set_then_delete_restores_the_table alice store name secret_k
           first_salt None w_ready (sample_table w_ready) (Str "a") (Str "1")).
  - reflexivity.
  - reflexivity.
Defined.

(** X12 at the sample. *)
Lemma delete_twice_witness :
  ∃ w1,
    EncryptStorage.delete alice (Str "a") w_written = (Ok tt, w1) ∧
    EncryptStorage.delete alice (Str "a") w1 = (Ok tt, w1).
Proof.
  apply (delete_twice alice store name secret_k first_salt None w_written
           (sample_table w_written) (Str "a")).
  - reflexivity.
  - reflexivity.
Defined.

(** X13 at the sample. *)
Lemma clear_forgets_every_key_witness :
  ∃ w1,
    EncryptStorage.clear alice w_suffixed = (Ok tt, w1) ∧
    EncryptStorage.clear alice w1 = (Ok tt, w1) ∧
    ∀ key,
      hashKey key ≠ salt_slot →
      EncryptStorage.get alice key w1 = (Ok None, w1).
Proof.
  apply (clear_forgets_every_key alice store name secret_k first_salt None
           w_suffixed (sample_table w_suffixed)).
  - reflexivity.
  - reflexivity.
Defined.

(** X14 at the sample: the writes of [alice] and the object store
    ['other'] of the database ['elsewhere']. *)
Lemma writes_stay_in_their_store_witness :
  table_of (EncryptStorage.set alice (Str "a") (Str "1") w_ready).2
      "elsewhere" "other"
    = table_of w_ready "elsewhere" "other" ∧
  table_of (EncryptStorage.delete alice (Str "a") w_ready).2 "elsewhere" "other"
    = table_of w_ready "elsewhere" "other" ∧
  table_of (EncryptStorage.clear alice w_ready).2 "elsewhere" "other"
    = table_of w_ready "elsewhere" "other" ∧
  ∀ reader baseKey' salt' iterations' key' w1,
    EncryptStorage._properties reader
      = Ok ("elsewhere", "other", baseKey', salt', iterations') →
    table_of w1 "elsewhere" "other" = table_of w_ready "elsewhere" "other" →
    (EncryptStorage.get reader key' w1).1
    = (EncryptStorage.get reader key' w_ready).1.
Proof.
  apply (writes_stay_in_their_store alice store name secret_k first_salt None
           w_ready (sample_table w_ready) (Str "a") (Str "1")
           "elsewhere" "other").
  - reflexivity.
  - reflexivity.
  - discriminate.
Defined.

(** X15 at the sample: the string ['a'] and the buffer of its byte. *)
Lemma string_key_aliases_its_bytes_witness :
  hashKey (Buf (TextEncoder_encode "a")) = hashKey (Str "a") ∧
  ∃ w1,
    EncryptStorage.set alice (Str "a") (Str "1") w_ready = (Ok tt, w1) ∧
    EncryptStorage.get alice (Buf (TextEncoder_encode "a")) w1
      = (Err AuthenticityError, w1).
Proof.
  apply (string_key_aliases_its_bytes alice store name secret_k first_salt
           None w_ready (sample_table w_ready) "a" (Str "1")).
  - reflexivity.
  - reflexivity.
  - reflexivity.
  - discriminate.
  - discriminate.
Defined.

(** X16 at the sample. *)
Lemma the_salt_survives_set_and_delete_witness :
  (table_of (EncryptStorage.set alice (Str "a") (Str "1") w_ready).2 store name
     ≫= (.!! salt_slot)) = Some first_salt ∧
  (table_of (EncryptStorage.delete alice (Str "a") w_ready).2 store name
     ≫= (.!! salt_slot)) = Some first_salt.
Proof.
  apply (the_salt_survives_set_and_delete alice store name secret_k first_salt
           None w_ready (sample_table w_ready) (Str "a") (Str "1") first_salt).
  - reflexivity.
  - reflexivity.
  - reflexivity.
  - discriminate.
  - discriminate.
Defined.


(** X18 at the sample: [delete('o-salt')] on [alice]. *)
Lemma the_key_o_salt_deletes_the_salt_witness :
  ∃ w1 w2 other baseKey',
    EncryptStorage.delete alice (Str "o-salt") w_ready = (Ok tt, w1) ∧
    (table_of w1 store name ≫= (.!! salt_slot)) = None ∧
    EncryptStorage.constructor config_k w1 = (Ok other, w2) ∧
    EncryptStorage._properties other
      = Ok (store, name, baseKey', random_bytes w1 8, None) ∧
    (table_of w2 store name ≫= (.!! salt_slot)) = Some (random_bytes w1 8).
Proof.
  refine (the_key_o_salt_deletes_the_salt config_k alice (text_key "k")
            secret_k first_salt None w_ready (sample_table w_ready)
            _ _ _ _ _).
  - reflexivity.
  - reflexivity.
  - reflexivity.
  - reflexivity.
  - reflexivity.
Defined.

(** X19 at the sample: [new EncryptStorage({ key: 'k' })] in the empty
    world. *)
Lemma a_new_database_holds_no_key_witness :
  ∃ this w1,
    EncryptStorage.constructor config_k w0 = (Ok this, w1) ∧
    (∀ key,
       hashKey key ≠ salt_slot →
       EncryptStorage.get this key w1 = (Ok None, w1)) ∧
    (hashNonce (Str "o-salt") ≠ salt_slot →
     EncryptStorage.get this (Str "o-salt") w1 = (Err AuthenticityError, w1)).
Proof.
  refine (a_new_database_holds_no_key config_k w0 (text_key "k") _ _ _).
  - reflexivity.
  - reflexivity.
  - reflexivity.
Defined.

End FurtherOnReference.
